(** * Bank of Brown backend: the account store and its callers

    A shallow embedding of the balance-mutation code of the backend:
    - [dal.js] (the data-access layer over the MongoDB collection [users]),
    - [repositories/userRepository.js] with the Mongoose model [models/user.js],
    - the account routes of [controllers/accountController.js],
    - [middlewares/errorMiddleware.js], [middlewares/validationMiddleware.js]
      and [middlewares/authMiddleware.js],
    - the routes of [controllers/transactionController.js] and
      [controllers/userController.js].

    Conventions of the embedding.
    - The collection [users] is the list of its documents in insertion order;
      a document's position stands for its [_id], and the account an email
      designates is the first document with that email ([list_find]), the
      one [findOne] and [findOneAndUpdate] pick.  The connection is taken as
      established, so the store-level faults (connectivity, indexes) do not
      occur.
    - A JavaScript number is a double ([float], the binary64 numbers of the
      machine, with their rounding, their infinities and [NaN]): [$inc],
      [+=] and [-=] are the additions and the subtraction of doubles, and
      the comparisons are those of doubles, false on [NaN].  The integer
      encodings that BSON has for whole numbers are not told apart from the
      doubles of the same value.
    - A string is its UTF-8 bytes.
    - An [async] function is a function from the collection to the new
      collection and a completion (a returned value or a thrown error).
      [null] is [None].  A route is what one request does when no other
      request writes between its awaits; the route [/create], which looks
      up and then inserts, is given turn by turn as well.
    - [bcrypt] and [jsonwebtoken] are outside the code: what their calls
      give is a parameter of the function that makes the call.
    - Logging ([logger], [console.error]) changes nothing that is observed
      here and is dropped; the [catch] blocks that log and rethrow are kept
      as [try_catch] with a rethrowing handler. *)

From Stdlib Require Import ZArith String Ascii Bool Floats.
From stdpp Require Import base decidable option list strings gmap.

Local Open Scope string_scope.
Local Open Scope Z_scope.
Local Open Scope list_scope.

(** ** Documents of the collection [users] *)

(** The fields a user document can carry.  [dal.create] writes the first
    four; [accountType] and [accountNumber] belong to the Mongoose schema only
    and are absent ([None]) from a document the data-access layer created. *)
Record User : Type := mkUser {
  name : string;
  email : string;
  password : string;
  balance : float;
  accountType : option string;
  accountNumber : option string
}.

(** A JavaScript object holding some of the fields of a user: the [newData]
    of an update.  An absent key is [None]. *)
Record UserData : Type := mkUserData {
  new_name : option string;
  new_email : option string;
  new_password : option string;
  new_balance : option float;
  new_accountType : option string;
  new_accountNumber : option string
}.

(** The object literal [{ name, password }]. *)
Definition name_password (n p : string) : UserData :=
  {| new_name := Some n; new_email := None; new_password := Some p;
     new_balance := None; new_accountType := None; new_accountNumber := None |}.

(** The object literal [{ balance }]. *)
Definition only_balance (b : float) : UserData :=
  {| new_name := None; new_email := None; new_password := None;
     new_balance := Some b; new_accountType := None; new_accountNumber := None |}.

(** The update operator [{ $set: newData }]: every key of [newData] replaces
    the document's field, the other fields stay. *)
Definition set_fields (d : UserData) (u : User) : User :=
  {| name := default (name u) (new_name d);
     email := default (email u) (new_email d);
     password := default (password u) (new_password d);
     balance := default (balance u) (new_balance d);
     accountType :=
       match new_accountType d with Some t => Some t | None => accountType u end;
     accountNumber :=
       match new_accountNumber d with Some t => Some t | None => accountNumber u end |}.

(** The update operator [{ $inc: { balance: amount } }], also the effect of
    [user.balance += amount] on a loaded document: an addition of doubles. *)
Definition inc_balance (amount : float) (u : User) : User :=
  {| name := name u; email := email u; password := password u;
     balance := (balance u + amount)%float;
     accountType := accountType u; accountNumber := accountNumber u |}.

(** ** Completions and the monad of the asynchronous store functions *)

(** [new Error(message)]: the only errors the store code throws. *)
Inductive exn : Type :=
  | Error (message : string).

Definition message_of (e : exn) : string :=
  match e with Error m => m end.

Inductive completion (A : Type) : Type :=
  | Return (a : A)
  | Throw (e : exn).
Arguments Return {A} a.
Arguments Throw {A} e.

Abbreviation users := (list User).

Definition Async (A : Type) : Type := users -> users * completion A.

Definition ret {A} (a : A) : Async A := fun s => (s, Return a).

Definition throw {A} (e : exn) : Async A := fun s => (s, Throw e).

Definition bind {A B} (c : Async A) (k : A -> Async B) : Async B :=
  fun s =>
    match c s with
    | (s', Return a) => k a s'
    | (s', Throw e) => (s', Throw e)
    end.

(** [try { body } catch (err) { handler }]: what the body wrote to the
    collection before it threw stays written. *)
Definition try_catch {A} (body : Async A) (handler : exn -> Async A) : Async A :=
  fun s =>
    match body s with
    | (s', Return a) => (s', Return a)
    | (s', Throw e) => handler e s'
    end.

Declare Scope async_scope.
Delimit Scope async_scope with async.
Notation "x <- c ;; k" := (bind c (fun x => k))
  (at level 100, c at next level, right associativity) : async_scope.
Notation "c ;;; k" := (bind c (fun _ => k))
  (at level 100, right associativity) : async_scope.

(** [if (cond) { throw new Error(msg); }] *)
Definition throw_if (cond : bool) (msg : string) : Async unit :=
  if cond then throw (Error msg) else ret tt.

(** [!x] for a value that is an object or [null]. *)
Definition is_null {A} (x : option A) : bool :=
  match x with Some _ => false | None => true end.

(** The collection a completed call leaves, and its completion. *)
Definition stored {A} (r : users * completion A) : users := fst r.
Definition completed {A} (r : users * completion A) : completion A := snd r.

(** ** The driver's operations on [db.collection('users')] *)

Module Collection.

(** The filter [{ email }]. *)
Definition matches (e : string) (u : User) : Prop := email u = e.

#[global] Instance matches_dec e u : Decision (matches e u).
Proof. unfold matches. apply _. Defined.

(** [insertOne(doc)]: the document goes to the end; [result.ops[0]] is the
    inserted document. *)
Definition insertOne (doc : User) : Async User :=
  fun s => (s ++ [doc], Return doc).

(** [find({ email }).toArray()] *)
Definition find_toArray (e : string) : Async (list User) :=
  fun s => (s, Return (filter (matches e) s)).

(** [find({}).toArray()] *)
Definition find_all_toArray : Async (list User) :=
  fun s => (s, Return s).

(** [findOne({ email })]: the first matching document, or [null]. *)
Definition findOne (e : string) : Async (option User) :=
  fun s => (s, Return (snd <$> list_find (matches e) s)).

(** [findOneAndUpdate({ email }, update, { returnDocument: 'after' })]:
    the first matching document is replaced by its update and
    [result.value] is the updated document; without a match nothing is
    written and [result.value] is [null]. *)
Definition findOneAndUpdate (e : string) (update : User -> User)
  : Async (option User) :=
  fun s =>
    match list_find (matches e) s with
    | Some (i, u) => (<[i := update u]> s, Return (Some (update u)))
    | None => (s, Return None)
    end.

End Collection.

(** ** dal.js *)

Module dal.

Local Open Scope async_scope.

Definition create (name email password : string) : Async User :=
  try_catch
    (let doc := {| name := name; email := email; password := password;
                   balance := 0;
                   accountType := None; accountNumber := None |} in
     result <- Collection.insertOne doc ;;
     ret result)
    (fun err => throw err).

Definition find (email : string) : Async (list User) :=
  try_catch (Collection.find_toArray email) (fun err => throw err).

Definition findOne (email : string) : Async (option User) :=
  try_catch
    (user <- Collection.findOne email ;;
     throw_if (is_null user) "User not found." ;;;
     ret user)
    (fun err => throw err).

Definition update (email : string) (newData : UserData) : Async (option User) :=
  try_catch
    (result <- Collection.findOneAndUpdate email (set_fields newData) ;;
     ret result)
    (fun err => throw err).

Definition deposit (email : string) (amount : float) : Async (option User) :=
  try_catch
    (result <- Collection.findOneAndUpdate email (inc_balance amount) ;;
     throw_if (amount <=? 0)%float "Amount must be positive." ;;;
     throw_if (is_null result) "User not found." ;;;
     ret result)
    (fun err => throw err).

Definition withdraw (email : string) (amount : float) : Async (option User) :=
  try_catch
    (user <- Collection.findOne email ;;
     throw_if (amount <=? 0)%float "Amount must be positive." ;;;
     match user with
     | None => throw (Error "User not found.")
     | Some user =>
         throw_if (balance user <? amount)%float "Insufficient funds." ;;;
         result <- Collection.findOneAndUpdate email (inc_balance (- amount)%float) ;;
         ret result
     end)
    (fun err => throw err).

Definition all : Async (list User) :=
  try_catch Collection.find_all_toArray (fun err => throw err).

End dal.

(** ** models/user.js and repositories/userRepository.js *)

(** The test of the regular expression [/.+\@.+\..+/] on a string, run as
    its automaton over the characters of the string.  The dot matches every
    character but the line terminators (line feed, carriage return, U+2028
    and U+2029); the expression is not anchored, so a match may start
    anywhere.  A character outside the basic plane is two code units to the
    expression; the dot matches both, which is one character that the dot
    matches here. *)
Module EmailPattern.

(** What the expression can tell of a character. *)
Inductive kind : Type :=
  | AtSign
  | FullStop
  | LineTerminator
  | Other.

(** A byte that continues a character begun by an earlier byte. *)
Definition continuation (c : ascii) : bool :=
  (128 <=? nat_of_ascii c)%nat && (nat_of_ascii c <=? 191)%nat.

(** Whether the bytes after a byte 226 make it U+2028 or U+2029 (226 128 168
    and 226 128 169). *)
Definition separator_follows (rest : string) : bool :=
  match rest with
  | String c1 (String c2 _) =>
      (c1 =? "128")%char && ((c2 =? "168")%char || (c2 =? "169")%char)
  | _ => false
  end.

(** The kind of the character that the byte [c] begins. *)
Definition kind_of (c : ascii) (rest : string) : kind :=
  if (c =? "@")%char then AtSign
  else if (c =? ".")%char then FullStop
  else if (c =? "010")%char || (c =? "013")%char then LineTerminator
  else if (c =? "226")%char && separator_follows rest then LineTerminator
  else Other.

(** The characters of a string, one kind for each. *)
Fixpoint characters (s : string) : list kind :=
  match s with
  | EmptyString => []
  | String c rest =>
      if continuation c then characters rest
      else kind_of c rest :: characters rest
  end.

(** The positions reached inside the expression: after the first [.+],
    after [@], after the second [.+], after the literal dot, and after the
    third [.+] (a match). *)
Record progress : Type := mkProgress {
  in_local : bool;
  at_sign : bool;
  in_domain : bool;
  at_dot : bool;
  matched : bool
}.

Definition start : progress := mkProgress false false false false false.

Definition is_kind (k k' : kind) : bool :=
  match k, k' with
  | AtSign, AtSign | FullStop, FullStop
  | LineTerminator, LineTerminator | Other, Other => true
  | _, _ => false
  end.

Definition step (p : progress) (k : kind) : progress :=
  let any := negb (is_kind k LineTerminator) in
  {| in_local := any;
     at_sign := in_local p && is_kind k AtSign;
     in_domain := any && (at_sign p || in_domain p);
     at_dot := in_domain p && is_kind k FullStop;
     matched := matched p || (any && at_dot p) |}.

Definition run (p : progress) (ks : list kind) : progress :=
  fold_left step ks p.

Definition test (s : string) : bool := matched (run start (characters s)).

End EmailPattern.

Module UserModel.

(** A loaded Mongoose document: the position of the stored document (its
    [_id]) and the fields it holds in memory. *)
Definition Document : Type := nat * User.

Definition nonempty (s : string) : bool :=
  match s with EmptyString => false | String _ _ => true end.

(** The [required] validator of a string path: the value is present and
    not the empty string. *)
Definition required (path : string) (v : option string) : list string :=
  match v with
  | Some s => if nonempty s then [] else [path]
  | None => [path]
  end.

(** The paths of [userSchema] that a document fails: [required] on the
    string paths, [match] on an email that passed [required], and the cast
    of [balance] to a number, which refuses [NaN].  They are listed here in
    the order of the schema; the order in which Mongoose names them in the
    message of its error is its own and is not modelled. *)
Definition validate (u : User) : list string :=
  required "name" (Some (name u))
  ++ (match required "email" (Some (email u)) with
      | [] => if EmailPattern.test (email u) then [] else ["email"]
      | paths => paths
      end)
  ++ required "password" (Some (password u))
  ++ (if is_nan (balance u) then ["balance"] else [])
  ++ required "accountType" (accountType u)
  ++ required "accountNumber" (accountNumber u).

(** The error that [save] throws for a document that fails validation;
    [describe] gives the message Mongoose composes for it. *)
Definition validation_failed (describe : User -> string) (u : User) : exn :=
  Error (describe u).

(** [User.findOne({ email })] *)
Definition findOne (e : string) : Async (option Document) :=
  fun s => (s, Return (list_find (Collection.matches e) s)).

(** [user.save()]: the document is validated against the schema; a valid
    document is written back to its place, an invalid one throws and
    nothing is written.  The unique indexes that the schema asks for on
    [email] and [accountNumber] are not modelled: the calls below that go
    through [save] are looked at where they set neither path to a value
    another document holds. *)
Definition save (describe : User -> string) (user : Document) : Async unit :=
  fun s =>
    match validate (snd user) with
    | [] => (<[fst user := snd user]> s, Return tt)
    | _ => (s, Throw (validation_failed describe (snd user)))
    end.

(** [new User(userData)]: the document in memory, with the default of
    [balance].  A string path that [userData] leaves out is held as the
    empty string, which the [required] validator refuses like an absent
    value, so such a document is never written. *)
Definition new_User (userData : UserData) : User :=
  {| name := default "" (new_name userData);
     email := default "" (new_email userData);
     password := default "" (new_password userData);
     balance := default 0%float (new_balance userData);
     accountType := new_accountType userData;
     accountNumber := new_accountNumber userData |}.

(** [user.save()] on a document made by [new User]: validated like any
    other, then inserted at the end of the collection. *)
Definition save_new (describe : User -> string) (user : User) : Async unit :=
  fun s =>
    match validate user with
    | [] => (s ++ [user], Return tt)
    | _ => (s, Throw (validation_failed describe user))
    end.

(** [User.find()] *)
Definition find_all : Async (list User) :=
  fun s => (s, Return s).

(** [User.findOneAndDelete({ email })]: the first matching document is
    removed and returned; [null] without a match. *)
Definition findOneAndDelete (e : string) : Async (option User) :=
  fun s =>
    match list_find (Collection.matches e) s with
    | Some (i, u) => (delete i s, Return (Some u))
    | None => (s, Return None)
    end.

End UserModel.

(** [user.balance -= amount]: a subtraction of doubles. *)
Definition dec_balance (amount : float) (u : User) : User :=
  {| name := name u; email := email u; password := password u;
     balance := (balance u - amount)%float;
     accountType := accountType u; accountNumber := accountNumber u |}.

(** Each function takes [describe], the message Mongoose composes for a
    document that fails validation. *)
Module UserRepository.

Local Open Scope async_scope.

(** The object [{ balance: user.balance }] is its number. *)
Definition deposit (describe : User -> string) (email : string) (amount : float)
  : Async (option float) :=
  try_catch
    (user <- UserModel.findOne email ;;
     match user with
     | None => ret None
     | Some (id, user) =>
         let user := inc_balance amount user in
         UserModel.save describe (id, user) ;;;
         ret (Some (balance user))
     end)
    (fun error =>
       throw (Error ("Error depositing money: " +:+ message_of error))).

Definition withdraw (describe : User -> string) (email : string) (amount : float)
  : Async (option float) :=
  try_catch
    (user <- UserModel.findOne email ;;
     match user with
     | None => ret None
     | Some (id, user) =>
         if (balance user <? amount)%float then ret None
         else
           let user := dec_balance amount user in
           UserModel.save describe (id, user) ;;;
           ret (Some (balance user))
     end)
    (fun error =>
       throw (Error ("Error withdrawing money: " +:+ message_of error))).

Definition createUser (describe : User -> string) (userData : UserData)
  : Async User :=
  try_catch
    (let user := UserModel.new_User userData in
     UserModel.save_new describe user ;;;
     ret user)
    (fun error =>
       throw (Error ("Error creating user: " +:+ message_of error))).

Definition findUserByEmail (email : string) : Async (option UserModel.Document) :=
  try_catch
    (UserModel.findOne email)
    (fun error =>
       throw (Error ("Error finding user by email: " +:+ message_of error))).

Definition all : Async (list User) :=
  try_catch
    UserModel.find_all
    (fun error =>
       throw (Error ("Error retrieving all users: " +:+ message_of error))).

(** [Object.assign(user, newData)] sets the keys of [newData] on the loaded
    document, as [$set] does on the stored one. *)
Definition updateUser (describe : User -> string) (email : string)
    (newData : UserData) : Async (option User) :=
  try_catch
    (user <- UserModel.findOne email ;;
     match user with
     | None => ret None
     | Some (id, user) =>
         let user := set_fields newData user in
         UserModel.save describe (id, user) ;;;
         ret (Some user)
     end)
    (fun error =>
       throw (Error ("Error updating user: " +:+ message_of error))).

Definition deleteUser (email : string) : Async (option User) :=
  try_catch
    (UserModel.findOneAndDelete email)
    (fun error =>
       throw (Error ("Error deleting user: " +:+ message_of error))).

End UserRepository.

(** ** HTTP responses *)

#[local] Unset Elimination Schemes.
Inductive json : Type :=
  | JNull
  | JNum (n : float)
  | JStr (s : string)
  | JArr (items : list json)
  | JObj (fields : list (string * json)).
#[local] Set Elimination Schemes.

(** A number as [JSON.stringify] writes it in a body: [NaN] and the
    infinities become [null]. *)
Definition json_number (x : float) : json :=
  if is_finite x then JNum x else JNull.

Definition user_json (u : User) : json :=
  JObj ([("name", JStr (name u)); ("email", JStr (email u));
         ("password", JStr (password u)); ("balance", json_number (balance u))]
        ++ from_option (fun t => [("accountType", JStr t)]) [] (accountType u)
        ++ from_option (fun t => [("accountNumber", JStr t)]) [] (accountNumber u)).

Record Response : Type := mkResponse {
  status : Z;
  body : json
}.

(** [res.status(code).json(body)] *)
Definition status_json (code : Z) (b : json) : Response := mkResponse code b.

(** [res.json(body)]: the status stays at its initial 200. *)
Definition res_json (b : json) : Response := mkResponse 200 b.

(** ** controllers/accountController.js *)

(** The routes take the fields read from [req.body]; [amount] is the number
    [parseFloat] made of the body's amount. *)
Module accountController.

Local Open Scope async_scope.

Definition internal_server_error : Response :=
  status_json 500 (JObj [("message", JStr "Internal server error")]).

Definition post_find (email : string) : Async Response :=
  try_catch
    (users <- dal.find email ;;
     if (Z.of_nat (length users) =? 0)
     then ret (status_json 404 (JObj [("message", JStr "User not found")]))
     else ret (res_json (JArr (map user_json users))))
    (fun error => ret internal_server_error).

Definition post_findOne (email : string) : Async Response :=
  try_catch
    (user <- dal.findOne email ;;
     match user with
     | None => ret (status_json 404 (JObj [("message", JStr "User not found")]))
     | Some user => ret (res_json (user_json user))
     end)
    (fun error => ret internal_server_error).

Definition post_update (email name password : string) : Async Response :=
  try_catch
    (updatedUser <- dal.update email (name_password name password) ;;
     match updatedUser with
     | None => ret (status_json 404 (JObj [("message", JStr "User not found")]))
     | Some updatedUser =>
         ret (status_json 200
                (JObj [("message", JStr "User information updated successfully");
                       ("user", user_json updatedUser)]))
     end)
    (fun error => ret internal_server_error).

Definition post_deposit (email : string) (amount : float) : Async Response :=
  try_catch
    (result <- dal.deposit email amount ;;
     match result with
     | None =>
         ret (status_json 404
                (JObj [("message", JStr "User not found or deposit failed")]))
     | Some result =>
         ret (res_json (JObj [("message", JStr "Deposit successful");
                              ("balance", json_number (balance result))]))
     end)
    (fun error => ret internal_server_error).

Definition post_withdraw (email : string) (amount : float) : Async Response :=
  try_catch
    (result <- dal.withdraw email amount ;;
     match result with
     | None =>
         ret (status_json 404
                (JObj [("message", JStr "User not found or insufficient funds")]))
     | Some result =>
         ret (res_json (JObj [("message", JStr "Withdrawal successful");
                              ("balance", json_number (balance result))]))
     end)
    (fun error => ret internal_server_error).

Definition get_all : Async Response :=
  try_catch
    (docs <- dal.all ;;
     ret (res_json (JArr (map user_json docs))))
    (fun error => ret internal_server_error).

(** The routes [/create] and [/login]. *)

Definition saltRounds : Z := 10.

(** [bcrypt_hash password saltRounds] is what the callback of [bcrypt.hash]
    receives: the hash, or [None] for an error. *)
Definition post_create (bcrypt_hash : string -> Z -> option string)
    (name email password : string) : Async Response :=
  try_catch
    (users <- dal.find email ;;
     if (0 <? Z.of_nat (length users))
     then ret (status_json 409 (JObj [("message", JStr "User already exists")]))
     else
       match bcrypt_hash password saltRounds with
       | None =>
           ret (status_json 500 (JObj [("message", JStr "Error hashing password")]))
       | Some hash =>
           user <- dal.create name email hash ;;
           ret (status_json 201 (user_json user))
       end)
    (fun error => ret internal_server_error).

(** The same route as the two turns of the event loop it takes: the first
    runs up to the answer of [dal.find], the second is the callback of
    [bcrypt.hash], which no [try] encloses.  Other requests can run between
    the two. *)
Inductive create_turn : Type :=
  | Answered (r : Response)
  | Hashing.

Definition post_create_lookup (email : string) : Async create_turn :=
  try_catch
    (users <- dal.find email ;;
     if (0 <? Z.of_nat (length users))
     then ret (Answered
                 (status_json 409 (JObj [("message", JStr "User already exists")])))
     else ret Hashing)
    (fun error => ret (Answered internal_server_error)).

Definition post_create_callback (bcrypt_hash : string -> Z -> option string)
    (name email password : string) : Async Response :=
  match bcrypt_hash password saltRounds with
  | None =>
      ret (status_json 500 (JObj [("message", JStr "Error hashing password")]))
  | Some hash =>
      user <- dal.create name email hash ;;
      ret (status_json 201 (user_json user))
  end.

Definition post_create_resume (bcrypt_hash : string -> Z -> option string)
    (name email password : string) (turn : create_turn) : Async Response :=
  match turn with
  | Answered r => ret r
  | Hashing => post_create_callback bcrypt_hash name email password
  end.

(** Two requests of which the second is looked up before the callback of
    the first has run. *)
Definition post_create_overlapping (bcrypt_hash : string -> Z -> option string)
    (name1 email1 password1 name2 email2 password2 : string)
  : Async (Response * Response) :=
  turn1 <- post_create_lookup email1 ;;
  turn2 <- post_create_lookup email2 ;;
  r1 <- post_create_resume bcrypt_hash name1 email1 password1 turn1 ;;
  r2 <- post_create_resume bcrypt_hash name2 email2 password2 turn2 ;;
  ret (r1, r2).

(** A response with the [Authorization] header the route may set. *)
Record Reply : Type := mkReply {
  authorization : option string;
  response : Response
}.

Definition plain (r : Response) : Reply := mkReply None r.

(** [bcrypt_compare password hash] is what the callback of [bcrypt.compare]
    receives: [None] for an error, otherwise whether the password matches.
    [jwt_sign email] is [jwt.sign({ email }, key, { expiresIn: '1h' })]. *)
Definition post_login (bcrypt_compare : string -> string -> option bool)
    (jwt_sign : string -> string) (email password : string) : Async Reply :=
  try_catch
    (users <- dal.find email ;;
     match users with
     | [] => ret (plain (status_json 404 (JObj [("message", JStr "User not found")])))
     | mkUser user_name user_email user_password _ _ _ :: _ =>
         match bcrypt_compare password user_password with
         | Some true =>
             let token := jwt_sign user_email in
             ret (mkReply (Some ("Bearer " +:+ token))
                    (res_json
                       (JObj [("message", JStr "Login successful");
                              ("user",
                               JObj [("email", JStr user_email);
                                     ("name", JStr user_name)])])))
         | _ =>
             ret (plain (status_json 401
                           (JObj [("message", JStr "Authentication failed")])))
         end
     end)
    (fun error => ret (plain internal_server_error)).

End accountController.

(** ** middlewares/errorMiddleware.js *)

Module errorMiddleware.

(** An error object as the middleware reads it.  [statusCode] is absent on
    a plain [Error]; [stack] is the trace the runtime attached. *)
Record JsError : Type := mkJsError {
  err_name : string;
  err_message : string;
  err_statusCode : option Z;
  err_stack : string
}.

(** [new Error(message)] *)
Definition PlainError (message stack : string) : JsError :=
  mkJsError "Error" message None stack.

(** [new ValidationError(message)] *)
Definition ValidationError (message stack : string) : JsError :=
  mkJsError "ValidationError" message (Some 400) stack.

(** [new NotFoundError(message)] *)
Definition NotFoundError (message stack : string) : JsError :=
  mkJsError "NotFoundError" message (Some 404) stack.

(** What the middleware did: it called [next(err)] or it sent a response. *)
Inductive handled : Type :=
  | Next (err : JsError)
  | Sent (r : Response).

(** [err.statusCode || 500]: an absent status code and the number 0 are
    falsy. *)
Definition statusCode_or_500 (err : JsError) : Z :=
  match err_statusCode err with
  | Some c => if c =? 0 then 500 else c
  | None => 500
  end.

(** [NODE_ENV] is the value of [process.env.NODE_ENV], [headersSent] that
    of [res.headersSent]. *)
Definition errorHandler (NODE_ENV : option string) (err : JsError)
    (headersSent : bool) : handled :=
  if headersSent then Next err
  else
    let statusCode := statusCode_or_500 err in
    let errorResponse :=
      JObj [("error",
             JObj ([("name", JStr (err_name err));
                    ("message", JStr (err_message err))]
                   ++ (if bool_decide (NODE_ENV = Some "development")
                       then [("stack", JStr (err_stack err))]
                       else [])))] in
    Sent (status_json statusCode errorResponse).

End errorMiddleware.

(** ** Sequences of store operations *)

Inductive operation : Type :=
  | Create (name email password : string)
  | Deposit (email : string) (amount : float)
  | Withdraw (email : string) (amount : float)
  | Update (email : string) (newData : UserData).

(** The collection after one call of the data-access layer, whatever the
    call returned or threw. *)
Definition apply_operation (s : users) (op : operation) : users :=
  match op with
  | Create n e p => stored (dal.create n e p s)
  | Deposit e a => stored (dal.deposit e a s)
  | Withdraw e a => stored (dal.withdraw e a s)
  | Update e d => stored (dal.update e d s)
  end.

Definition run_operations (s : users) (ops : list operation) : users :=
  fold_left apply_operation ops s.

(** Every stored balance is at least 0: no negative number, no [NaN]. *)
Definition balances_nonnegative (s : users) : Prop :=
  Forall (fun u => (0 <=? balance u)%float = true) s.

(** Which calls the invariant of the balance can bear: a deposit of a
    positive amount, a withdrawal of an amount that is neither [NaN] nor an
    infinity, an update whose [newData] has no [balance] key. *)
Definition keeps_funds (op : operation) : Prop :=
  match op with
  | Deposit _ a => (0 <? a)%float = true
  | Withdraw _ a => is_finite a = true
  | Update _ d => new_balance d = None
  | Create _ _ _ => True
  end.


(** ** The specification of the doubles: signs and finiteness *)

(** The results that carry the sign [s]: no [NaN] among them. *)
Definition signed (s : bool) (x : spec_float) : Prop :=
  match x with
  | S754_zero s' | S754_infinity s' | S754_finite s' _ _ => s' = s
  | S754_nan => False
  end.

Definition nonnegative (x : spec_float) : Prop :=
  SFleb (S754_zero false) x = true.

Definition finite (x : spec_float) : Prop :=
  match x with
  | S754_zero _ | S754_finite _ _ _ => True
  | _ => False
  end.

(** ** Sample records and a sample sequence *)

Definition john0 : User := mkUser "John" "john@x.com" "pw" 0 None None.
Definition john50 : User := mkUser "John" "john@x.com" "pw" 50 None None.
Definition jane70 : User := mkUser "Jane" "jane@x.com" "pw2" 70 None None.
Definition mary50 : User :=
  mkUser "Mary" "mary@x.com" "pw" 50 (Some "checking") (Some "0001").


(** A stand-in for the message Mongoose composes, in the examples: it lists
    the failing paths. *)
Definition sample_describe (u : User) : string :=
  "invalid paths: " +:+ String.concat ", " (UserModel.validate u).

(** Stand-ins for [bcrypt] and [jsonwebtoken] in the examples. *)
Definition sample_hash (password : string) (rounds : Z) : option string :=
  Some ("$2b$" +:+ password).
Definition sample_compare (password hash : string) : option bool :=
  Some (String.eqb ("$2b$" +:+ password) hash).
Definition sample_sign (email : string) : string := "jwt." +:+ email.
Definition sample_verify (token : string) : option string :=
  if String.prefix "jwt." token
  then Some (String.substring 4 (String.length token - 4) token)
  else None.

Definition mary0 : User :=
  mkUser "Mary" "mary@x.com" "pw" 0 (Some "checking") (Some "0001").

(** A [userData] that passes the validators of the schema. *)
Definition mary_data : UserData :=
  mkUserData (Some "Mary") (Some "mary@x.com") (Some "pw") None
    (Some "checking") (Some "0001").

(** Whether a character occurs in a string. *)
Fixpoint contains (c : ascii) (s : string) : bool :=
  match s with
  | EmptyString => false
  | String c' s' => (c' =? c)%char || contains c s'
  end.

Definition spec_scenario : list operation :=
  [Create "John" "john@x.com" "pw"; Deposit "john@x.com" 100;
   Withdraw "john@x.com" 50; Withdraw "john@x.com" 100;
   Update "john@x.com" (name_password "Johnny" "pw3")].

(** ** middlewares/validationMiddleware.js and middlewares/authMiddleware.js *)

(** What a middleware did with a request: it called [next()], with what it
    attached to the request, or it sent a response. *)
Inductive passed (A : Type) : Type :=
  | Continue (attached : A)
  | Respond (r : Response).
Arguments Continue {A} attached.
Arguments Respond {A} r.

(** A value of a parsed JSON body, as far as [!value] looks at it; arrays
    and objects are [BObject]. *)
Inductive body_value : Type :=
  | BNull
  | BBool (b : bool)
  | BNum (n : Z)
  | BStr (s : string)
  | BObject.

(** [req.body]: the keys of the parsed JSON object. *)
Abbreviation Body := (gmap string body_value).

(** The truth value of [req.body[field]]; an absent key is [undefined]. *)
Definition truthy (v : option body_value) : bool :=
  match v with
  | None | Some BNull => false
  | Some (BBool b) => b
  | Some (BNum n) => negb (n =? 0)
  | Some (BStr s) => negb (String.eqb s "")
  | Some BObject => true
  end.

Module validationMiddleware.

Definition requiredFields : list string := ["email"; "password"].

Definition missingFields (body : Body) : list string :=
  List.filter (fun field => negb (truthy (body !! field))) requiredFields.

Definition validateUser (body : Body) : passed unit :=
  if (0 <? Z.of_nat (length (missingFields body)))
  then
    let missingFieldsList := String.concat ", " (missingFields body) in
    Respond (status_json 400
               (JObj [("message",
                       JStr ("Missing required fields: " +:+ missingFieldsList))]))
  else Continue tt.

End validationMiddleware.

(** [s.split(sep)] for a separator of one character: the pieces between the
    separators, empty pieces included. *)
Fixpoint split (sep : ascii) (s : string) : list string :=
  match s with
  | EmptyString => [EmptyString]
  | String c s' =>
      if (c =? sep)%char then EmptyString :: split sep s'
      else match split sep s' with
           | piece :: pieces => String c piece :: pieces
           | [] => [String c EmptyString]
           end
  end.

Module authMiddleware.

(** [authHeader && authHeader.split(' ')[1]]: an absent or empty header is
    its own falsy value, otherwise it is the second piece, if there is
    one. *)
Definition token_of (authHeader : option string) : option string :=
  match authHeader with
  | None => None
  | Some h => if String.eqb h "" then Some "" else split " " h !! 1%nat
  end.

(** [!token] *)
Definition no_token (token : option string) : bool :=
  match token with
  | None => true
  | Some t => String.eqb t ""
  end.

(** [jwt_verify] is [jwt.verify] under the secret key of the process: the
    decoded payload of a token it accepts, [None] when it reports an error.
    The header is [req.headers['authorization']]; the payload is what the
    middleware stores in [req.user]. *)
Definition authenticateToken {Payload : Type}
    (jwt_verify : string -> option Payload) (authHeader : option string)
  : passed Payload :=
  let token := token_of authHeader in
  if no_token token
  then Respond (status_json 401 (JObj [("message", JStr "Token not provided.")]))
  else
    match jwt_verify (default "" token) with
    | None => Respond (status_json 401 (JObj [("message", JStr "Invalid token.")]))
    | Some user => Continue user
    end.

End authMiddleware.

(** ** controllers/transactionController.js and controllers/userController.js *)

(** The two controllers hold the same three routes, word for word. *)
Module transactionController.

Local Open Scope async_scope.

(** The keys of [module.exports] of dal.js. *)
Definition dal_exports : list string :=
  ["connectToMongo"; "getDb"; "createDocument"; "findDocument";
   "updateDocument"; "deleteDocument"; "disconnectFromMongo"; "create";
   "find"; "findOne"; "update"; "deposit"; "withdraw"; "all"].

(** Calling a property the module does not export: the property is
    [undefined] and the call throws a [TypeError]. *)
Definition not_a_function {A} (key : string) : Async A :=
  throw (Error ("dal." +:+ key +:+ " is not a function")).

(** [dal.getAllTransactions()] and [dal.createTransaction(amount,
    description)]: dal.js exports neither. *)
Definition dal_getAllTransactions : Async json :=
  not_a_function "getAllTransactions".

Definition dal_createTransaction : Async json :=
  not_a_function "createTransaction".

Definition internal_server_error : Response :=
  status_json 500 (JObj [("message", JStr "Internal server error")]).

(** [router.get('/secure-data', validateUser, authenticateToken, ...)] *)
Definition get_secure_data {Payload : Type}
    (jwt_verify : string -> option Payload)
    (body : Body) (authHeader : option string) : Response :=
  match validationMiddleware.validateUser body with
  | Respond r => r
  | Continue _ =>
      match authMiddleware.authenticateToken jwt_verify authHeader with
      | Respond r => r
      | Continue _ => res_json (JObj [("message", JStr "Secure data")])
      end
  end.

(** [router.get('/', validateUser, ...)] *)
Definition get_transactions (body : Body) : Async Response :=
  match validationMiddleware.validateUser body with
  | Respond r => ret r
  | Continue _ =>
      try_catch
        (transactions <- dal_getAllTransactions ;;
         ret (res_json transactions))
        (fun error => ret internal_server_error)
  end.

(** [router.post('/', validateUser, ...)] *)
Definition post_transactions (body : Body) : Async Response :=
  match validationMiddleware.validateUser body with
  | Respond r => ret r
  | Continue _ =>
      try_catch
        (newTransaction <- dal_createTransaction ;;
         ret (status_json 201 newTransaction))
        (fun error => ret internal_server_error)
  end.

End transactionController.

(** ** The connection of dal.js *)

(** The module variables [db] and [client], the number of calls of
    [MongoClient.connect] made so far and the clients that were closed.  A
    client is the number of the call that made it; a [db] handle is the
    client it came from. *)
Module mongoConnection.

Record State : Type := mkState {
  db : option nat;
  client : option nat;
  connects : nat;
  closed : list nat
}.

(** The module as loaded: no handle, no call made. *)
Definition loaded : State := mkState None None 0 [].

(** The object [{ db, client }]. *)
Record Handles : Type := mkHandles {
  handles_db : nat;
  handles_client : option nat
}.

(** [connect_error] is the outcome of [MongoClient.connect] should the call
    be made: [None] when it resolves, the error when it rejects. *)
Definition connectToMongo (connect_error : option exn) (w : State)
  : State * completion Handles :=
  match db w with
  | Some d => (w, Return (mkHandles d (client w)))
  | None =>
      match connect_error with
      | None =>
          let c := connects w in
          (mkState (Some c) (Some c) (S (connects w)) (closed w),
           Return (mkHandles c (Some c)))
      | Some error => (mkState (db w) (client w) (S (connects w)) (closed w),
                       Throw error)
      end
  end.

Definition getDb (w : State) : completion nat :=
  match db w with
  | None => Throw (Error "DB not initialized. Call connectToMongo first.")
  | Some d => Return d
  end.

(** [setupDAL(uri, dbName)] passes its arguments to [connectToMongo], which
    takes none. *)
Definition setupDAL (uri dbName : string) (connect_error : option exn)
    (w : State) : State * completion Handles :=
  connectToMongo connect_error w.

Definition disconnectFromMongo (w : State) : State :=
  match client w with
  | Some c => mkState (db w) (client w) (connects w) (c :: closed w)
  | None => w
  end.

(** A run of calls of [connectToMongo], one for each outcome that
    [MongoClient.connect] would have. *)
Definition connect_each (outcomes : list (option exn)) (w : State) : State :=
  fold_left (fun w r => fst (connectToMongo r w)) outcomes w.

(** The position of the first outcome that is no error. *)
Fixpoint first_success (outcomes : list (option exn)) : option nat :=
  match outcomes with
  | [] => None
  | None :: _ => Some 0%nat
  | Some _ :: outcomes' => S <$> first_success outcomes'
  end.

End mongoConnection.

(** What a call that targets the email [e] can have done to the collection:
    nothing, or a replacement of the first record with that email. *)
Definition touched_first_match (e : string) (s s' : users) : Prop :=
  s' = s
  \/ exists (i : nat) (u u' : User),
       list_find (Collection.matches e) s = Some (i, u) /\ s' = <[i := u']> s.

(** Unfolds the store functions down to the list operations. *)
Ltac run_async :=
  unfold dal.create, dal.find, dal.findOne, dal.update, dal.deposit,
    dal.withdraw, dal.all, UserRepository.deposit, UserRepository.withdraw,
    UserModel.findOne, UserModel.save,
    Collection.insertOne, Collection.find_toArray, Collection.findOne,
    Collection.findOneAndUpdate, try_catch, bind, throw_if, throw, ret,
    stored, completed in *.

(** * Properties *)

(** ** The doubles: facts about their specification *)

Section SpecFacts.

Variables prec emax : Z.

Lemma shr_1_nonneg (mrs : shr_record) : 0 <= shr_m mrs -> 0 <= shr_m (shr_1 mrs).
Proof.
  destruct mrs as [m r s]. simpl.
  destruct m as [|[p|p|]|[p|p|]]; simpl; lia.
Qed.

Lemma iter_shr_1_nonneg (p : positive) :
  forall mrs, 0 <= shr_m mrs -> 0 <= shr_m (SpecFloat.iter_pos shr_1 p mrs).
Proof.
  induction p as [p IH|p IH|]; intros mrs H; simpl.
  - apply IH, IH, shr_1_nonneg, H.
  - apply IH, IH, H.
  - apply shr_1_nonneg, H.
Qed.

Lemma shr_nonneg (mrs : shr_record) (e n : Z) :
  0 <= shr_m mrs -> 0 <= shr_m (fst (shr mrs e n)).
Proof.
  intros H. unfold shr. destruct n; simpl; try assumption.
  apply iter_shr_1_nonneg, H.
Qed.

Lemma shr_record_of_loc_m (m : Z) (l : location) : shr_m (shr_record_of_loc m l) = m.
Proof. destruct l as [|[]]; reflexivity. Qed.

Lemma shr_fexp_nonneg (m e : Z) (l : location) :
  0 <= m -> 0 <= shr_m (fst (shr_fexp prec emax m e l)).
Proof.
  intros H. unfold shr_fexp. apply shr_nonneg. rewrite shr_record_of_loc_m. exact H.
Qed.

Lemma round_nearest_even_nonneg (m : Z) (l : location) :
  0 <= m -> 0 <= round_nearest_even m l.
Proof.
  intros H. unfold round_nearest_even. destruct l as [|[]]; try lia.
  destruct (Z.even m); lia.
Qed.

Lemma binary_round_aux_signed (s : bool) (m e : Z) (l : location) :
  0 <= m -> signed s (binary_round_aux prec emax s m e l).
Proof.
  intros H. unfold binary_round_aux.
  pose proof (shr_fexp_nonneg m e l H) as H1.
  destruct (shr_fexp prec emax m e l) as [mrs' e']. simpl in H1.
  pose proof (shr_fexp_nonneg _ e' loc_Exact
                (round_nearest_even_nonneg _ (loc_of_shr_record mrs') H1)) as H2.
  destruct (shr_fexp prec emax _ e' loc_Exact) as [mrs'' e'']. simpl in H2.
  destruct (shr_m mrs'') as [|p|p]; simpl; try reflexivity; [|lia].
  destruct (e'' <=? emax - prec); reflexivity.
Qed.

Lemma binary_round_signed (s : bool) (m : positive) (e : Z) :
  signed s (binary_round prec emax s m e).
Proof.
  unfold binary_round. destruct (shl_align _ _ _) as [mz ez].
  apply binary_round_aux_signed. lia.
Qed.

(** The normalised sum of two aligned mantissas has the sign of the sum. *)
Lemma binary_normalize_signed (m e : Z) :
  signed (m <? 0) (binary_normalize prec emax m e false).
Proof.
  unfold binary_normalize. destruct m as [|p|p]; simpl.
  - reflexivity.
  - apply binary_round_signed.
  - apply binary_round_signed.
Qed.

(** Subtraction is addition of the opposite. *)
Lemma SFsub_SFadd_SFopp (x y : spec_float) :
  SFsub prec emax x y = SFadd prec emax x (SFopp y).
Proof.
  destruct x as [sx|sx| |sx mx ex], y as [sy|sy| |sy my ey]; simpl;
    try reflexivity;
    try (destruct sx, sy; reflexivity).
Qed.

Lemma SFcompare_antisym (x y : spec_float) (c : comparison) :
  SFcompare x y = Some c -> SFcompare y x = Some (CompOpp c).
Proof.
  destruct x as [sx|sx| |sx mx ex], y as [sy|sy| |sy my ey]; simpl;
    try discriminate;
    try (destruct sx; intros [= <-]; reflexivity);
    try (destruct sy; intros [= <-]; reflexivity);
    try (intros [= <-]; reflexivity);
    try (destruct sx, sy; intros [= <-]; reflexivity).
  change (Pos.compare_cont Eq my mx) with (Pos.compare my mx).
  change (Pos.compare_cont Eq mx my) with (Pos.compare mx my).
  rewrite (Z.compare_antisym ex ey), (Pos.compare_antisym mx my).
  destruct sx, sy; intros [= <-]; try reflexivity;
    destruct (ex ?= ey); simpl; try reflexivity;
    destruct (mx ?= my)%positive; reflexivity.
Qed.

(** *** Aligned mantissas and the order of valid numbers *)

Lemma iter_xO_value (m d : positive) :
  Zpos (Pos.iter xO m d) = Zpos m * 2 ^ Zpos d.
Proof.
  induction d as [|d IH] using Pos.peano_ind.
  - simpl. lia.
  - rewrite Pos.iter_succ, Pos2Z.inj_succ, Z.pow_succ_r by lia.
    rewrite Pos2Z.inj_xO, IH. lia.
Qed.

Lemma shl_align_value (m : positive) (e e' : Z) :
  e' <= e -> Zpos (fst (shl_align m e e')) = Zpos m * 2 ^ (e - e').
Proof.
  intros H. unfold shl_align.
  destruct (e' - e) as [|d|d] eqn:Hd; simpl.
  - replace (e - e') with 0 by lia. simpl. lia.
  - lia.
  - replace (e - e') with (Zpos d) by lia. apply iter_xO_value.
Qed.

Lemma digits2_pos_size (m : positive) : digits2_pos m = Pos.size m.
Proof. induction m as [m IH|m IH|]; simpl; congruence. Qed.

Lemma digits2_pos_bounds (m : positive) :
  Zpos m < 2 ^ Zpos (digits2_pos m) /\ 2 ^ Zpos (digits2_pos m) <= 2 * Zpos m.
Proof.
  rewrite digits2_pos_size. split.
  - pose proof (Pos.size_gt m) as H.
    apply Pos2Z.pos_lt_pos in H. rewrite Pos2Z.inj_pow in H. exact H.
  - pose proof (Pos.size_le m) as H.
    apply Pos2Z.pos_le_pos in H. rewrite Pos2Z.inj_pow in H.
    rewrite Pos2Z.inj_xO in H. exact H.
Qed.

Lemma bounded_digits (m : positive) (e : Z) :
  bounded prec emax m e = true ->
  Zpos (digits2_pos m) <= prec
  /\ SpecFloat.emin prec emax <= e
  /\ (SpecFloat.emin prec emax < e -> Zpos (digits2_pos m) = prec).
Proof.
  unfold bounded, canonical_mantissa, fexp. intros H.
  apply andb_true_iff in H as [H _]. apply Z.eqb_eq in H. lia.
Qed.

(** Of two valid positive numbers, the one that does not compare below the
    other has the larger aligned mantissa. *)
Lemma aligned_mantissas_ordered (mx my : positive) (ex ey : Z) :
  bounded prec emax mx ex = true -> bounded prec emax my ey = true ->
  SFltb (S754_finite false mx ex) (S754_finite false my ey) = false ->
  0 <= Zpos (fst (shl_align mx ex (Z.min ex ey)))
       - Zpos (fst (shl_align my ey (Z.min ex ey))).
Proof.
  intros Hx Hy Hlt.
  rewrite !shl_align_value by lia.
  unfold SFltb, SFcompare in Hlt.
  change (Pos.compare_cont Eq mx my) with (Pos.compare mx my) in Hlt.
  destruct (Z.compare_spec ex ey) as [He|He|He]; [|discriminate|].
  - subst ey. rewrite Z.min_id, Z.sub_diag. simpl.
    destruct (Pos.compare_spec mx my) as [Hm|Hm|Hm]; try discriminate; lia.
  - clear Hlt.
    rewrite Z.min_r, Z.sub_diag by lia. simpl.
    destruct (bounded_digits mx ex Hx) as (_ & _ & Hdx).
    destruct (bounded_digits my ey Hy) as (Hdy & Hey & _).
    specialize (Hdx ltac:(lia)).
    destruct (digits2_pos_bounds mx) as [_ Hmx].
    destruct (digits2_pos_bounds my) as [Hmy _].
    rewrite Hdx in Hmx.
    assert (2 ^ Zpos (digits2_pos my) <= 2 ^ prec)
      by (apply Z.pow_le_mono_r; lia).
    assert (2 ^ 1 <= 2 ^ (ex - ey)) by (apply Z.pow_le_mono_r; lia).
    change (2 ^ 1) with 2 in *. nia.
Qed.

(** *** The sign of sums and differences *)

Lemma nonnegative_cases (x : spec_float) :
  nonnegative x <->
  match x with
  | S754_zero _ => True
  | S754_infinity s | S754_finite s _ _ => s = false
  | S754_nan => False
  end.
Proof.
  unfold nonnegative, SFleb. destruct x as [s|[]| |[] m e]; simpl;
    intuition congruence.
Qed.

Lemma signed_false_nonnegative (x : spec_float) : signed false x -> nonnegative x.
Proof.
  intros H. apply nonnegative_cases. destruct x; simpl in *; auto.
Qed.

Lemma SFadd_nonnegative (x y : spec_float) :
  nonnegative x -> nonnegative y -> nonnegative (SFadd prec emax x y).
Proof.
  rewrite !nonnegative_cases.
  destruct x as [sx|sx| |sx mx ex], y as [sy|sy| |sy my ey]; simpl;
    try tauto; try (intros -> ->; reflexivity); try (intros _ ->; reflexivity);
    try (intros -> _; reflexivity).
  - destruct sx, sy; simpl; auto.
  - intros -> ->. simpl.
    apply nonnegative_cases, signed_false_nonnegative.
    apply (binary_normalize_signed (Zpos _ + Zpos _)).
Qed.

(** A difference that is a number, taken from a number that is not negative
    by one that is not above it, is not negative. *)
Lemma SFsub_nonnegative (x y : spec_float) :
  SpecFloat.valid_binary prec emax x = true -> SpecFloat.valid_binary prec emax y = true ->
  nonnegative x -> SFltb x y = false ->
  SFsub prec emax x y <> S754_nan ->
  nonnegative (SFsub prec emax x y).
Proof.
  intros Vx Vy Hx Hlt Hnan. apply nonnegative_cases in Hx.
  apply nonnegative_cases.
  destruct x as [sx|sx| |sx mx ex], y as [sy|sy| |sy my ey]; simpl in *;
    try contradiction; try tauto; subst; simpl in *;
    try reflexivity; try discriminate.
  - destruct sx, sy; exact I.
  - destruct sy; [reflexivity | discriminate Hlt].
  - destruct sy; [reflexivity | discriminate Hlt].
  - destruct sy; [reflexivity | contradiction].
  - destruct sy; [reflexivity | discriminate Hlt].
  - destruct sy; simpl.
    + apply nonnegative_cases, signed_false_nonnegative.
      apply (binary_normalize_signed (Zpos _ - Zneg _)).
    + pose proof (aligned_mantissas_ordered mx my ex ey Vx Vy Hlt) as Hd.
      apply nonnegative_cases, signed_false_nonnegative.
      pose proof (binary_normalize_signed
                    (Zpos (fst (shl_align mx ex (Z.min ex ey)))
                     - Zpos (fst (shl_align my ey (Z.min ex ey))))
                    (Z.min ex ey)) as Hs.
      replace (_ <? 0) with false in Hs by (symmetry; apply Z.ltb_ge; exact Hd).
      exact Hs.
Qed.

Lemma SFadd_finite_not_nan (x y : spec_float) :
  x <> S754_nan -> y <> S754_nan -> finite x \/ finite y ->
  SFadd prec emax x y <> S754_nan.
Proof.
  destruct x as [sx|sx| |sx mx ex], y as [sy|sy| |sy my ey]; simpl;
    try tauto; try discriminate.
  - destruct sx, sy; discriminate.
  - intros _ _ _ H.
    pose proof (binary_normalize_signed
                  (cond_Zopp sx (Zpos (fst (shl_align mx ex (Z.min ex ey))))
                   + cond_Zopp sy (Zpos (fst (shl_align my ey (Z.min ex ey)))))
                  (Z.min ex ey)) as Hs.
    rewrite H in Hs. exact Hs.
Qed.

Lemma SFopp_finite (y : spec_float) : finite y -> finite (SFopp y).
Proof. destruct y; simpl; auto. Qed.

Lemma SFopp_not_nan (y : spec_float) : y <> S754_nan -> SFopp y <> S754_nan.
Proof. destruct y; simpl; congruence. Qed.

Lemma SFeqb_refl_nan (x : spec_float) : SFeqb x x = false <-> x = S754_nan.
Proof.
  unfold SFeqb. destruct x as [s|[]| |[] m e]; simpl;
    try (split; congruence);
    rewrite Z.compare_refl;
    change (Pos.compare_cont Eq m m) with (Pos.compare m m);
    rewrite Pos.compare_refl; simpl; split; congruence.
Qed.

End SpecFacts.

(** ** The same facts on the doubles of the machine *)

Section DoubleFacts.

Local Open Scope float_scope.


Lemma Prim2SF_inj (x y : float) : Prim2SF x = Prim2SF y -> x = y.
Proof.
  intros H. rewrite <- (SF2Prim_Prim2SF x), <- (SF2Prim_Prim2SF y), H.
  reflexivity.
Qed.

Lemma Prim2SF_zero : Prim2SF 0 = S754_zero false.
Proof. reflexivity. Qed.

Lemma is_nan_spec (x : float) : is_nan x = true <-> Prim2SF x = S754_nan.
Proof.
  unfold is_nan. rewrite (FloatAxioms.eqb_spec x x), negb_true_iff.
  apply SFeqb_refl_nan.
Qed.

Lemma is_nan_false (x : float) : is_nan x = false <-> Prim2SF x <> S754_nan.
Proof.
  rewrite <- is_nan_spec. destruct (is_nan x); split; congruence.
Qed.

Lemma is_finite_spec (x : float) : is_finite x = true -> finite (Prim2SF x).
Proof.
  unfold is_finite, is_nan, is_infinity.
  rewrite !FloatAxioms.eqb_spec, abs_spec.
  change (Prim2SF infinity) with (S754_infinity false).
  destruct (Prim2SF x) as [s|s| |s m e]; simpl; auto.
  - destruct s; simpl; discriminate.
  - discriminate.
Qed.

Lemma nonneg_spec (x : float) : (0 <=? x) = true <-> nonnegative (Prim2SF x).
Proof. rewrite leb_spec, Prim2SF_zero. reflexivity. Qed.

Lemma nonneg_not_nan (x : float) : (0 <=? x) = true -> is_nan x = false.
Proof.
  rewrite nonneg_spec, nonnegative_cases, is_nan_false.
  destruct (Prim2SF x); simpl; congruence.
Qed.

(** [x - y] and [x + -y] are the same double. *)
Lemma sub_add_opp (x y : float) : x - y = x + - y.
Proof.
  apply Prim2SF_inj. rewrite sub_spec, add_spec, opp_spec.
  apply SFsub_SFadd_SFopp.
Qed.

Lemma ltb_antisym (x y : float) : (x <=? y) = true -> (y <? x) = false.
Proof.
  rewrite leb_spec, ltb_spec. unfold SFleb, SFltb.
  destruct (SFcompare (Prim2SF x) (Prim2SF y)) as [c|] eqn:Hc; [|discriminate].
  rewrite (SFcompare_antisym _ _ _ Hc). destruct c; simpl; congruence.
Qed.

Lemma leb_antisym (x y : float) : (x <? y) = true -> (y <=? x) = false.
Proof.
  rewrite leb_spec, ltb_spec. unfold SFleb, SFltb.
  destruct (SFcompare (Prim2SF x) (Prim2SF y)) as [c|] eqn:Hc; [|discriminate].
  rewrite (SFcompare_antisym _ _ _ Hc). destruct c; simpl; congruence.
Qed.

Lemma ltb_leb (x y : float) : (x <? y) = true -> (x <=? y) = true.
Proof.
  rewrite leb_spec, ltb_spec. unfold SFleb, SFltb.
  destruct (SFcompare (Prim2SF x) (Prim2SF y)) as [[]|]; congruence.
Qed.

(** A sum of two numbers that are not negative is not negative. *)
Lemma add_nonneg (x y : float) :
  (0 <=? x) = true -> (0 <=? y) = true -> (0 <=? x + y) = true.
Proof.
  rewrite !nonneg_spec, add_spec. apply SFadd_nonnegative.
Qed.

(** A difference that is a number, taken from a number that is not negative
    by one it is not below, is not negative. *)
Lemma sub_nonneg (x y : float) :
  (0 <=? x) = true -> (x <? y) = false -> is_nan (x - y) = false ->
  (0 <=? x - y) = true.
Proof.
  rewrite !nonneg_spec, is_nan_false, ltb_spec, sub_spec.
  apply SFsub_nonnegative; apply Prim2SF_valid.
Qed.

Lemma add_not_nan (x y : float) :
  is_nan x = false -> is_nan y = false ->
  is_finite x = true \/ is_finite y = true ->
  is_nan (x + y) = false.
Proof.
  rewrite !is_nan_false, add_spec. intros Hx Hy Hf.
  apply SFadd_finite_not_nan; try assumption.
  destruct Hf as [Hf|Hf]; [left | right]; apply is_finite_spec, Hf.
Qed.

Lemma sub_not_nan (x y : float) :
  is_nan x = false -> is_nan y = false ->
  is_finite x = true \/ is_finite y = true ->
  is_nan (x - y) = false.
Proof.
  rewrite !is_nan_false, sub_spec. unfold SF64sub.
  rewrite SFsub_SFadd_SFopp. intros Hx Hy Hf.
  apply SFadd_finite_not_nan; try assumption.
  - apply SFopp_not_nan, Hy.
  - destruct Hf as [Hf|Hf]; [left | right; apply SFopp_finite];
      apply is_finite_spec, Hf.
Qed.

Lemma is_finite_not_nan (x : float) : is_finite x = true -> is_nan x = false.
Proof.
  unfold is_finite. destruct (is_nan x); simpl; congruence.
Qed.

Lemma ltb_not_nan (x y : float) :
  (x <? y) = true -> is_nan x = false /\ is_nan y = false.
Proof.
  rewrite ltb_spec, !is_nan_false. unfold SFltb.
  destruct (Prim2SF x), (Prim2SF y); simpl; try discriminate;
    split; discriminate.
Qed.

Lemma leb_not_nan (x y : float) :
  (x <=? y) = true -> is_nan x = false /\ is_nan y = false.
Proof.
  rewrite leb_spec, !is_nan_false. unfold SFleb.
  destruct (Prim2SF x), (Prim2SF y); simpl; try discriminate;
    split; discriminate.
Qed.

End DoubleFacts.

(** ** The store functions, case by case *)

Section StoreCases.

Variables (s : users) (e : string).

Abbreviation first_match := (list_find (Collection.matches e) s).

Lemma first_match_email i u : first_match = Some (i, u) -> email u = e.
Proof. intros H. apply list_find_Some in H. tauto. Qed.

Lemma first_match_lookup i u : first_match = Some (i, u) -> s !! i = Some u.
Proof. intros H. apply list_find_Some in H. tauto. Qed.

Lemma first_match_none :
  (forall u, u ∈ s -> email u <> e) <-> first_match = None.
Proof.
  rewrite list_find_None, Forall_forall. reflexivity.
Qed.

(** An account with the email exists exactly when the lookup finds one. *)
Lemma first_match_exists :
  (exists u, u ∈ s /\ email u = e) <-> (exists i u, first_match = Some (i, u)).
Proof.
  split.
  - intros (u & Hu & He).
    destruct (list_find_elem_of (Collection.matches e) s u Hu He) as [[i u'] H].
    eauto.
  - intros (i & u & H). exists u. apply list_find_Some in H as (Hi & He & _).
    split; [eapply list_elem_of_lookup_2; eassumption | exact He].
Qed.

(** Replacing the first match by a document of the same email keeps it the
    first match. *)
Lemma first_match_insert i u u' :
  first_match = Some (i, u) -> email u' = e ->
  list_find (Collection.matches e) (<[i := u']> s) = Some (i, u').
Proof.
  intros H He. apply list_find_Some in H as (Hi & _ & Hleast).
  apply list_find_Some. split_and!.
  - apply list_lookup_insert_eq. eapply lookup_lt_Some; eassumption.
  - exact He.
  - intros j y Hj Hlt. rewrite list_lookup_insert_ne in Hj by lia.
    eapply Hleast; eassumption.
Qed.

(** The guards are the comparisons of doubles the code makes: [amount <= 0]
    and [user.balance < amount], both false when an operand is [NaN]. *)
Lemma deposit_found a i u :
  first_match = Some (i, u) -> (a <=? 0)%float = false ->
  dal.deposit e a s
  = (<[i := inc_balance a u]> s, Return (Some (inc_balance a u))).
Proof. intros H Ha. run_async. rewrite H, Ha. reflexivity. Qed.

Lemma deposit_found_invalid a i u :
  first_match = Some (i, u) -> (a <=? 0)%float = true ->
  dal.deposit e a s
  = (<[i := inc_balance a u]> s, Throw (Error "Amount must be positive.")).
Proof. intros H Ha. run_async. rewrite H, Ha. reflexivity. Qed.

Lemma deposit_absent a :
  first_match = None -> (a <=? 0)%float = false ->
  dal.deposit e a s = (s, Throw (Error "User not found.")).
Proof. intros H Ha. run_async. rewrite H, Ha. reflexivity. Qed.

Lemma deposit_absent_invalid a :
  first_match = None -> (a <=? 0)%float = true ->
  dal.deposit e a s = (s, Throw (Error "Amount must be positive.")).
Proof. intros H Ha. run_async. rewrite H, Ha. reflexivity. Qed.

Lemma withdraw_invalid a :
  (a <=? 0)%float = true ->
  dal.withdraw e a s = (s, Throw (Error "Amount must be positive.")).
Proof. intros Ha. run_async. rewrite Ha. reflexivity. Qed.

Lemma withdraw_absent a :
  first_match = None -> (a <=? 0)%float = false ->
  dal.withdraw e a s = (s, Throw (Error "User not found.")).
Proof. intros H Ha. run_async. rewrite H, Ha. reflexivity. Qed.

Lemma withdraw_insufficient a i u :
  first_match = Some (i, u) -> (a <=? 0)%float = false ->
  (balance u <? a)%float = true ->
  dal.withdraw e a s = (s, Throw (Error "Insufficient funds.")).
Proof. intros H Ha Hb. run_async. rewrite H, Ha. simpl. rewrite Hb. reflexivity. Qed.

Lemma withdraw_found a i u :
  first_match = Some (i, u) -> (a <=? 0)%float = false ->
  (balance u <? a)%float = false ->
  dal.withdraw e a s
  = (<[i := inc_balance (- a) u]> s, Return (Some (inc_balance (- a) u))).
Proof.
  intros H Ha Hb. run_async. rewrite H, Ha. simpl. rewrite Hb, H. reflexivity.
Qed.

Lemma update_found d i u :
  first_match = Some (i, u) ->
  dal.update e d s = (<[i := set_fields d u]> s, Return (Some (set_fields d u))).
Proof. intros H. run_async. rewrite H. reflexivity. Qed.

Lemma update_absent d :
  first_match = None -> dal.update e d s = (s, Return None).
Proof. intros H. run_async. rewrite H. reflexivity. Qed.

End StoreCases.

Lemma filter_absent (s : users) (e : string) :
  (forall u, u ∈ s -> email u <> e) -> filter (Collection.matches e) s = [].
Proof.
  induction s as [|x s IH]; intros H; [reflexivity|].
  rewrite filter_cons, decide_False.
  - apply IH. intros u Hu. apply H. now right.
  - apply H. now left.
Qed.

(** [$inc] by [-amount] stores the difference of the two doubles. *)
Lemma balance_inc_opp (a : float) (u : User) :
  balance (inc_balance (- a) u) = (balance u - a)%float.
Proof. simpl. symmetry. apply sub_add_opp. Qed.

(** ** The claims *)







(** C5: when no record has the email, [findOne] throws the not-found error
    ([Error "User not found."]) and [find] returns the empty array. *)
Theorem absent_email_findOne_find
    (s : users) (e : string) (Habsent : forall u, u ∈ s -> email u <> e) :
  dal.findOne e s = (s, Throw (Error "User not found."))
  /\ dal.find e s = (s, Return []).
Proof.
  split.
  - run_async. apply first_match_none in Habsent. rewrite Habsent. reflexivity.
  - run_async. rewrite filter_absent by assumption. reflexivity.
Qed.

Lemma absent_email_findOne_find_witness :
  dal.findOne "nobody@x.com" [john0; jane70]
  = ([john0; jane70], Throw (Error "User not found."))
  /\ dal.find "nobody@x.com" [john0; jane70] = ([john0; jane70], Return []).
Proof.
  apply (absent_email_findOne_find [john0; jane70] "nobody@x.com").
  apply first_match_none. reflexivity.
Defined.

(** C8: [dal.findOne] returns no [null]: for every email it returns a
    stored record with that email or it throws; so the route [/findOne]
    answers 200 with that record or 500, and its 404 branch is never
    taken. *)
Theorem findOne_never_null (s : users) (e : string) :
  ((exists u : User,
      u ∈ s /\ email u = e /\ dal.findOne e s = (s, Return (Some u))
      /\ accountController.post_findOne e s
         = (s, Return (res_json (user_json u))))
   \/ (exists err : exn,
         dal.findOne e s = (s, Throw err)
         /\ accountController.post_findOne e s
            = (s, Return accountController.internal_server_error)))
  /\ completed (dal.findOne e s) <> Return None
  /\ (forall r : Response,
        completed (accountController.post_findOne e s) = Return r ->
        status r <> 404).
Proof.
  unfold accountController.post_findOne. run_async.
  destruct (list_find (Collection.matches e) s) as [[i u]|] eqn:Hfind; simpl.
  - split_and!.
    + left. exists u. split_and!; try reflexivity.
      * eapply list_elem_of_lookup_2, first_match_lookup; eassumption.
      * eapply first_match_email; eassumption.
    + discriminate.
    + intros r [= <-]. simpl. lia.
  - split_and!.
    + right. exists (Error "User not found."). split; reflexivity.
    + discriminate.
    + intros r [= <-]. simpl. lia.
Qed.

Lemma findOne_never_null_witness :
  completed (dal.findOne "nobody@x.com" [jane70; john50]) <> Return None
  /\ completed (dal.findOne "john@x.com" [jane70; john50]) = Return (Some john50)
  /\ (forall r : Response,
        completed (accountController.post_findOne "nobody@x.com" [jane70; john50])
        = Return r ->
        status r <> 404).
Proof.
  destruct (findOne_never_null [jane70; john50] "nobody@x.com")
    as (_ & Hnull & Hroute).
  split_and!; [exact Hnull | reflexivity | exact Hroute].
Defined.

(** C10: on an account that exists, the route [/update] (which calls
    [dal.update] with the object [{ name, password }]) replaces the record
    by one with the same email and balance, whose name and password are the
    ones sent; every other record stays as it was. *)
Theorem update_keeps_email_and_balance
    (s : users) (e n p : string) (i : nat) (u : User)
    (Hfound : list_find (Collection.matches e) s = Some (i, u)) :
  exists u' : User,
    dal.update e (name_password n p) s = (<[i := u']> s, Return (Some u'))
    /\ accountController.post_update e n p s
       = (<[i := u']> s,
          Return (status_json 200
                    (JObj [("message", JStr "User information updated successfully");
                           ("user", user_json u')])))
    /\ email u' = email u /\ balance u' = balance u
    /\ accountType u' = accountType u /\ accountNumber u' = accountNumber u
    /\ name u' = n /\ password u' = p
    /\ (forall j : nat, j <> i -> <[i := u']> s !! j = s !! j).
Proof.
  exists (set_fields (name_password n p) u).
  unfold accountController.post_update.
  rewrite (update_found s e _ i u Hfound).
  unfold try_catch, bind, ret.
  rewrite (update_found s e _ i u Hfound).
  split_and!; try reflexivity.
  intros j Hj. apply list_lookup_insert_ne. congruence.
Qed.

Lemma update_keeps_email_and_balance_witness :
  exists u' : User,
    dal.update "john@x.com" (name_password "Johnny" "pw3") [jane70; john50]
    = (<[1%nat := u']> [jane70; john50], Return (Some u'))
    /\ accountController.post_update "john@x.com" "Johnny" "pw3" [jane70; john50]
       = (<[1%nat := u']> [jane70; john50],
          Return (status_json 200
                    (JObj [("message", JStr "User information updated successfully");
                           ("user", user_json u')])))
    /\ email u' = email john50 /\ balance u' = balance john50
    /\ accountType u' = accountType john50
    /\ accountNumber u' = accountNumber john50
    /\ name u' = "Johnny" /\ password u' = "pw3"
    /\ (forall j : nat, j <> 1%nat ->
          <[1%nat := u']> [jane70; john50] !! j = [jane70; john50] !! j).
Proof.
  apply (update_keeps_email_and_balance
           [jane70; john50] "john@x.com" "Johnny" "pw3" 1 john50).
  reflexivity.
Defined.

(** C2: what the code does with an amount that is not positive.  Both
    functions throw; [withdraw] writes nothing, but [deposit] has applied
    its [$inc] before it looks at the amount, so a negative amount is taken
    off the stored balance. *)
Theorem deposit_negative_amount_is_applied :
  dal.deposit "john@x.com" (-5) [jane70; john50]
  = ([jane70; mkUser "John" "john@x.com" "pw" 45 None None],
     Throw (Error "Amount must be positive."))
  /\ dal.withdraw "john@x.com" (-5) [jane70; john50]
     = ([jane70; john50], Throw (Error "Amount must be positive.")).
Proof. split; reflexivity. Qed.

(** What is left of C2 in general: both functions throw on an amount that
    is not positive, [withdraw] leaves the collection as it was, and
    [deposit] leaves it only when no record matches or the sum is the
    balance again. *)
Lemma nonpositive_amount_throws (s : users) (e : string) (a : float) :
  (a <=? 0)%float = true ->
  completed (dal.deposit e a s) = Throw (Error "Amount must be positive.")
  /\ dal.withdraw e a s = (s, Throw (Error "Amount must be positive.")).
Proof.
  intros Ha. split.
  - destruct (list_find (Collection.matches e) s) as [[i u]|] eqn:Hfind.
    + rewrite (deposit_found_invalid s e a i u); auto.
    + rewrite (deposit_absent_invalid s e a); auto.
  - apply withdraw_invalid. assumption.
Qed.

(** An amount that is [NaN] passes both guards, which are comparisons: it
    is written by [deposit] and by [withdraw]. *)
Lemma nan_amount_is_written :
  dal.deposit "john@x.com" nan [jane70; john50]
  = ([jane70; mkUser "John" "john@x.com" "pw" nan None None],
     Return (Some (mkUser "John" "john@x.com" "pw" nan None None)))
  /\ dal.withdraw "john@x.com" nan [jane70; john50]
     = ([jane70; mkUser "John" "john@x.com" "pw" nan None None],
        Return (Some (mkUser "John" "john@x.com" "pw" nan None None))).
Proof. split; reflexivity. Qed.

(** C6: what the routes [/deposit] and [/withdraw] answer when the store
    throws a domain fault.  The store throws where the routes test for
    [null], so the [catch] block answers: a missing account, an amount above
    the balance and an amount that is not positive all give 500. *)
Theorem domain_faults_answer_500 :
  accountController.post_deposit "nobody@x.com" 10 [jane70; john50]
  = ([jane70; john50], Return accountController.internal_server_error)
  /\ accountController.post_withdraw "nobody@x.com" 10 [jane70; john50]
     = ([jane70; john50], Return accountController.internal_server_error)
  /\ accountController.post_withdraw "john@x.com" 100 [jane70; john50]
     = ([jane70; john50], Return accountController.internal_server_error)
  /\ accountController.post_withdraw "john@x.com" (-5) [jane70; john50]
     = ([jane70; john50], Return accountController.internal_server_error)
  /\ status accountController.internal_server_error = 500.
Proof. split_and!; reflexivity. Qed.

(** In general: whatever the store throws, both routes answer 500, and
    neither route ever answers 404. *)
Lemma thrown_fault_answers_500 (s : users) (e : string) (a : float) :
  (forall err, completed (dal.deposit e a s) = Throw err ->
     completed (accountController.post_deposit e a s)
     = Return accountController.internal_server_error)
  /\ (forall err, completed (dal.withdraw e a s) = Throw err ->
       completed (accountController.post_withdraw e a s)
       = Return accountController.internal_server_error).
Proof.
  unfold accountController.post_deposit, accountController.post_withdraw.
  unfold try_catch, bind, completed, ret.
  split; intros err H.
  - destruct (dal.deposit e a s) as [s' [r|err']]; simpl in *; [discriminate|].
    reflexivity.
  - destruct (dal.withdraw e a s) as [s' [r|err']]; simpl in *; [discriminate|].
    reflexivity.
Qed.

Lemma deposit_withdraw_never_404 (s : users) (e : string) (a : float) (r : Response) :
  completed (accountController.post_deposit e a s) = Return r
  \/ completed (accountController.post_withdraw e a s) = Return r ->
  status r = 200 \/ status r = 500.
Proof.
  unfold accountController.post_deposit, accountController.post_withdraw.
  run_async.
  destruct (list_find (Collection.matches e) s) as [[i u]|] eqn:Hfind;
    destruct (a <=? 0)%float eqn:Ha; simpl;
    try (intros [[= <-] | [= <-]]; simpl; auto; fail).
  destruct (balance u <? a)%float eqn:Hb; simpl; rewrite ?Hfind; simpl;
    intros [[= <-] | [= <-]]; simpl; auto.
Qed.

(** C7: what the middleware sends for an error that carries no status
    code, before the headers are sent.  The status is 500, but the body
    repeats the name and the message of the error: two errors with two
    messages get two bodies, and neither is the fixed
    [{ message: 'Internal Server Error' }] of the middleware's test. *)
Theorem errorHandler_repeats_the_message :
  forall stack : string,
    errorMiddleware.errorHandler None
      (errorMiddleware.PlainError "Some other error" stack) false
    = errorMiddleware.Sent
        (mkResponse 500
           (JObj [("error", JObj [("name", JStr "Error");
                                  ("message", JStr "Some other error")])]))
    /\ errorMiddleware.errorHandler None
         (errorMiddleware.PlainError "connect ECONNREFUSED 127.0.0.1:27017" stack)
         false
       = errorMiddleware.Sent
           (mkResponse 500
              (JObj [("error",
                      JObj [("name", JStr "Error");
                            ("message",
                             JStr "connect ECONNREFUSED 127.0.0.1:27017")])]))
    /\ errorMiddleware.errorHandler (Some "development")
         (errorMiddleware.PlainError "Some other error" stack) false
       = errorMiddleware.Sent
           (mkResponse 500
              (JObj [("error", JObj [("name", JStr "Error");
                                     ("message", JStr "Some other error");
                                     ("stack", JStr stack)])])).
Proof. intros stack. split_and!; reflexivity. Qed.

(** In general, for an error without a status code: the status sent is 500
    and the message in the body is the error's own. *)
Lemma errorHandler_unclassified
    (env : option string) (err : errorMiddleware.JsError) :
  errorMiddleware.err_statusCode err = None ->
  exists rest : list (string * json),
    errorMiddleware.errorHandler env err false
    = errorMiddleware.Sent
        (mkResponse 500
           (JObj [("error",
                   JObj (("name", JStr (errorMiddleware.err_name err))
                         :: ("message", JStr (errorMiddleware.err_message err))
                         :: rest))])).
Proof.
  intros H. unfold errorMiddleware.errorHandler, errorMiddleware.statusCode_or_500.
  rewrite H. simpl. eexists. reflexivity.
Qed.

(** An error of one of the two classes of the middleware gets the status
    code of its class. *)
Lemma errorHandler_classified (env : option string) (msg stack : string) :
  (exists b, errorMiddleware.errorHandler env
               (errorMiddleware.ValidationError msg stack) false
             = errorMiddleware.Sent (mkResponse 400 b))
  /\ (exists b, errorMiddleware.errorHandler env
                  (errorMiddleware.NotFoundError msg stack) false
                = errorMiddleware.Sent (mkResponse 404 b)).
Proof. split; eexists; reflexivity. Qed.

Lemma errorHandler_forwards (env : option string) (err : errorMiddleware.JsError) :
  errorMiddleware.errorHandler env err true = errorMiddleware.Next err.
Proof. reflexivity. Qed.

(** *** The invariant of the balance *)

Lemma balances_nonnegative_lookup (s : users) (i : nat) (u : User) :
  balances_nonnegative s -> s !! i = Some u -> (0 <=? balance u)%float = true.
Proof.
  intros Hs Hi.
  exact (Forall_lookup_1 (fun u => (0 <=? balance u)%float = true) s i u Hs Hi).
Qed.

(** An update of the first match by a function that keeps balances at
    least 0 keeps the invariant. *)
Lemma findOneAndUpdate_nonnegative (s : users) (e : string) (f : User -> User) :
  (forall u, u ∈ s -> (0 <=? balance u)%float = true ->
             (0 <=? balance (f u))%float = true) ->
  balances_nonnegative s ->
  balances_nonnegative (stored (Collection.findOneAndUpdate e f s)).
Proof.
  intros Hf Hs. unfold stored, Collection.findOneAndUpdate.
  destruct (list_find (Collection.matches e) s) as [[i u]|] eqn:Hfind;
    simpl; [|assumption].
  apply first_match_lookup in Hfind.
  apply Forall_insert; [assumption|].
  apply Hf.
  - eapply list_elem_of_lookup_2; eassumption.
  - eapply balances_nonnegative_lookup; eassumption.
Qed.

Lemma withdraw_cases (s : users) (e : string) (a : float) :
  (exists err, dal.withdraw e a s = (s, Throw err))
  \/ (exists i u, list_find (Collection.matches e) s = Some (i, u)
                 /\ (a <=? 0)%float = false
                 /\ (balance u <? a)%float = false
                 /\ dal.withdraw e a s
                    = (<[i := inc_balance (- a) u]> s,
                       Return (Some (inc_balance (- a) u)))).
Proof.
  destruct (a <=? 0)%float eqn:Ha.
  { left. eexists. apply withdraw_invalid. assumption. }
  destruct (list_find (Collection.matches e) s) as [[i u]|] eqn:Hfind.
  - destruct (balance u <? a)%float eqn:Hb.
    + left. eexists. eapply withdraw_insufficient; eauto.
    + right. exists i, u. split_and!; try reflexivity; try assumption.
      apply withdraw_found; auto.
  - left. eexists. apply withdraw_absent; auto.
Qed.

(** A withdrawal that passed the guard of the balance, on a balance that is
    at least 0, leaves a balance that is at least 0, unless the difference
    is no number. *)
Lemma withdrawn_balance_nonnegative (a : float) (u : User) :
  (0 <=? balance u)%float = true -> (balance u <? a)%float = false ->
  is_nan (balance u - a)%float = false ->
  (0 <=? balance (inc_balance (- a) u))%float = true.
Proof.
  intros Hu Hb Hn. rewrite balance_inc_opp. apply sub_nonneg; assumption.
Qed.

Lemma apply_operation_nonnegative (s : users) (op : operation) :
  balances_nonnegative s -> keeps_funds op ->
  balances_nonnegative (apply_operation s op).
Proof.
  intros Hs Hop. destruct op as [n e p | e a | e a | e d]; simpl in *.
  - apply Forall_app. split; [assumption|].
    apply Forall_singleton. reflexivity.
  - pose proof (leb_antisym _ _ Hop) as Hpos.
    destruct (list_find (Collection.matches e) s) as [[i u]|] eqn:Hfind.
    + rewrite (deposit_found s e a i u Hfind Hpos). unfold stored. simpl.
      apply Forall_insert; [assumption|]. simpl.
      apply first_match_lookup in Hfind.
      apply add_nonneg; [|apply ltb_leb; assumption].
      eapply balances_nonnegative_lookup; eassumption.
    + rewrite (deposit_absent s e a Hfind Hpos). assumption.
  - destruct (withdraw_cases s e a)
      as [[err ->] | (i & u & Hfind & Ha & Hb & ->)];
      unfold stored; simpl; [assumption|].
    apply first_match_lookup in Hfind.
    pose proof (balances_nonnegative_lookup s i u Hs Hfind) as Hu.
    apply Forall_insert; [assumption|].
    apply withdrawn_balance_nonnegative; try assumption.
    apply sub_not_nan.
    + apply nonneg_not_nan. assumption.
    + apply is_finite_not_nan. assumption.
    + right. assumption.
  - replace (dal.update e d s) with (Collection.findOneAndUpdate e (set_fields d) s).
    + apply findOneAndUpdate_nonnegative; [|assumption].
      intros u _ Hu. simpl. rewrite Hop. assumption.
    + run_async. destruct (list_find (Collection.matches e) s) as [[i u]|];
        reflexivity.
Qed.

Lemma run_operations_nonnegative (ops : list operation) :
  forall s : users,
    balances_nonnegative s -> Forall keeps_funds ops ->
    balances_nonnegative (run_operations s ops).
Proof.
  induction ops as [|op ops IH]; intros s Hs Hops; simpl; [assumption|].
  apply Forall_cons in Hops as [Hop Hops].
  apply IH; [|assumption].
  apply apply_operation_nonnegative; assumption.
Qed.

(** C1, as stated, fails on [update]: the function merges whatever keys its
    [newData] has, and a [balance] key below 0 is written as it is. *)
Lemma update_writes_negative_balance :
  run_operations [] [Create "John" "john@x.com" "pw";
                     Update "john@x.com" (only_balance (-1))]
  = [mkUser "John" "john@x.com" "pw" (-1) None None]
  /\ (-1 <? 0)%float = true
  /\ ~ balances_nonnegative
        (run_operations [] [Create "John" "john@x.com" "pw";
                            Update "john@x.com" (only_balance (-1))]).
Proof.
  split_and!; try reflexivity.
  intros H. apply Forall_cons in H as [H _]. vm_compute in H. discriminate H.
Qed.

(** The other ways out of the invariant: a [deposit] of a negative amount,
    which throws only after its [$inc] is written (see C2), and a
    [withdraw] of an infinity from an infinite balance, which passes both
    guards and stores [NaN]. *)
Lemma negative_deposit_breaks_invariant :
  ~ balances_nonnegative
      (run_operations [] [Create "John" "john@x.com" "pw";
                          Deposit "john@x.com" (-5)])
  /\ run_operations [] [Create "John" "john@x.com" "pw";
                        Deposit "john@x.com" infinity;
                        Withdraw "john@x.com" infinity]
     = [mkUser "John" "john@x.com" "pw" nan None None].
Proof.
  split; [|reflexivity].
  intros H. apply Forall_cons in H as [H _]. vm_compute in H. discriminate H.
Qed.

(** C1, amended: from a collection whose balances are all at least 0, every
    sequence of [create], [deposit] of amounts above 0, [withdraw] of
    amounts that are neither [NaN] nor an infinity, and [update] without a
    [balance] key leads to a collection whose balances are all at least 0;
    there [create] adds a record with balance 0, and a [withdraw], of
    whatever amount, that would take a balance below 0 throws and leaves the
    collection as it was. *)
Theorem balance_stays_nonnegative
    (s : users) (ops : list operation)
    (Hs : balances_nonnegative s) (Hops : Forall keeps_funds ops) :
  balances_nonnegative (run_operations s ops)
  /\ (forall n e p : string,
        exists u : User,
          dal.create n e p (run_operations s ops)
          = (run_operations s ops ++ [u], Return u)
          /\ balance u = 0%float)
  /\ (forall (e : string) (a : float) (i : nat) (u : User),
        list_find (Collection.matches e) (run_operations s ops) = Some (i, u) ->
        (balance u - a <? 0)%float = true ->
        exists err : exn,
          dal.withdraw e a (run_operations s ops)
          = (run_operations s ops, Throw err)).
Proof.
  pose proof (run_operations_nonnegative ops s Hs Hops) as Hend.
  split_and!.
  - assumption.
  - intros n e p. eexists. split; reflexivity.
  - intros e a i u Hfind Hneg.
    destruct (withdraw_cases (run_operations s ops) e a)
      as [Hthrow | (i' & u' & Hfind' & Ha & Hb & _)]; [assumption|].
    rewrite Hfind in Hfind'. injection Hfind' as <- <-.
    apply first_match_lookup in Hfind.
    pose proof (balances_nonnegative_lookup _ i u Hend Hfind) as Hu.
    destruct (ltb_not_nan _ _ Hneg) as [Hn _].
    pose proof (sub_nonneg _ _ Hu Hb Hn) as Hge.
    rewrite (ltb_antisym _ _ Hge) in Hneg. discriminate Hneg.
Qed.

Lemma balance_stays_nonnegative_witness :
  balances_nonnegative (run_operations [] spec_scenario)
  /\ (forall n e p : string,
        exists u : User,
          dal.create n e p (run_operations [] spec_scenario)
          = (run_operations [] spec_scenario ++ [u], Return u)
          /\ balance u = 0%float)
  /\ (forall (e : string) (a : float) (i : nat) (u : User),
        list_find (Collection.matches e) (run_operations [] spec_scenario)
        = Some (i, u) ->
        (balance u - a <? 0)%float = true ->
        exists err : exn,
          dal.withdraw e a (run_operations [] spec_scenario)
          = (run_operations [] spec_scenario, Throw err)).
Proof.
  apply (balance_stays_nonnegative [] spec_scenario).
  - apply Forall_nil_2.
  - unfold spec_scenario.
    repeat (apply Forall_cons_2; [simpl; first [reflexivity | exact I]|]).
    apply Forall_nil_2.
Defined.

(** *** The two persistence implementations *)

(** A document that passes the schema holds a balance that is a number. *)
Lemma validate_balance (u : User) :
  UserModel.validate u = [] -> is_nan (balance u) = false.
Proof.
  unfold UserModel.validate. intros H.
  apply app_eq_nil in H as [_ H]. apply app_eq_nil in H as [_ H].
  apply app_eq_nil in H as [_ H]. apply app_eq_nil in H as [H _].
  destruct (is_nan (balance u)); [discriminate H | reflexivity].
Qed.

(** Of the balance the validators read only whether it is a number. *)
Lemma validate_new_balance (u u' : User) :
  name u' = name u -> email u' = email u -> password u' = password u ->
  accountType u' = accountType u -> accountNumber u' = accountNumber u ->
  UserModel.validate u = [] -> is_nan (balance u') = false ->
  UserModel.validate u' = [].
Proof.
  intros Hn He Hp Ht Ha Hv Hb. pose proof (validate_balance u Hv) as Hb0.
  unfold UserModel.validate in *. rewrite Hn, He, Hp, Ht, Ha, Hb.
  rewrite Hb0 in Hv. exact Hv.
Qed.

Lemma validate_inc_balance (a : float) (u : User) :
  UserModel.validate u = [] -> is_nan (balance u + a)%float = false ->
  UserModel.validate (inc_balance a u) = [].
Proof. intros Hv Hn. apply (validate_new_balance u); auto. Qed.

Lemma validate_dec_balance (a : float) (u : User) :
  UserModel.validate u = [] -> is_nan (balance u - a)%float = false ->
  UserModel.validate (dec_balance a u) = [].
Proof. intros Hv Hn. apply (validate_new_balance u); auto. Qed.

Lemma dec_balance_inc_balance (a : float) (u : User) :
  dec_balance a u = inc_balance (- a) u.
Proof. unfold dec_balance, inc_balance. f_equal. apply sub_add_opp. Qed.

(** C9, as stated, fails on a record the data-access layer created: it has
    no [accountType] and no [accountNumber], which the schema of the model
    requires, so [save] throws in the repository, whatever the message of
    its error, where [dal.deposit] and [dal.withdraw] succeed. *)
Lemma repository_rejects_dal_record :
  dal.deposit "john@x.com" 100 [jane70; john50]
  = ([jane70; mkUser "John" "john@x.com" "pw" 150 None None],
     Return (Some (mkUser "John" "john@x.com" "pw" 150 None None)))
  /\ UserModel.validate (mkUser "John" "john@x.com" "pw" 150 None None)
     = ["accountType"; "accountNumber"]
  /\ (forall describe : User -> string,
        UserRepository.deposit describe "john@x.com" 100 [jane70; john50]
        = ([jane70; john50],
           Throw (Error ("Error depositing money: "
                         +:+ describe (mkUser "John" "john@x.com" "pw" 150 None None)))))
  /\ dal.withdraw "john@x.com" 20 [jane70; john50]
     = ([jane70; mkUser "John" "john@x.com" "pw" 30 None None],
        Return (Some (mkUser "John" "john@x.com" "pw" 30 None None)))
  /\ (forall describe : User -> string,
        UserRepository.withdraw describe "john@x.com" 20 [jane70; john50]
        = ([jane70; john50],
           Throw (Error ("Error withdrawing money: "
                         +:+ describe (mkUser "John" "john@x.com" "pw" 30 None None)))))
  /\ (forall describe : User -> string,
        ~ (exists b : float,
             completed (UserRepository.deposit describe "john@x.com" 100
                          [jane70; john50])
             = Return (Some b))).
Proof.
  split_and!; try reflexivity.
  intros describe [b Hb]. vm_compute in Hb. discriminate Hb.
Qed.

(** C9, amended: on an account that exists and passes the validators of the
    model's schema, whose balance is neither [NaN] nor an infinity, and for
    an amount [a > 0] (for [withdraw] also [a <= balance]), the data-access
    layer and the repository leave the same collection and give the same
    balance: the double nearest to the old balance plus [a] for [deposit],
    the double nearest to the old balance minus [a] for [withdraw]. *)
Theorem dal_and_repository_agree
    (describe : User -> string)
    (s : users) (e : string) (a : float) (i : nat) (u : User)
    (Hfound : list_find (Collection.matches e) s = Some (i, u))
    (Hvalid : UserModel.validate u = [])
    (Hfinite : is_finite (balance u) = true)
    (Ha : (0 <? a)%float = true) :
  (exists u' : User,
     dal.deposit e a s = (<[i := u']> s, Return (Some u'))
     /\ UserRepository.deposit describe e a s
        = (<[i := u']> s, Return (Some (balance u')))
     /\ balance u' = (balance u + a)%float)
  /\ ((a <=? balance u)%float = true ->
       exists u' : User,
         dal.withdraw e a s = (<[i := u']> s, Return (Some u'))
         /\ UserRepository.withdraw describe e a s
            = (<[i := u']> s, Return (Some (balance u')))
         /\ balance u' = (balance u - a)%float).
Proof.
  pose proof (leb_antisym _ _ Ha) as Hpos.
  destruct (ltb_not_nan _ _ Ha) as [_ Hna].
  pose proof (is_finite_not_nan _ Hfinite) as Hnb.
  split.
  - exists (inc_balance a u). split_and!.
    + apply deposit_found; assumption.
    + run_async. rewrite Hfound. simpl.
      rewrite validate_inc_balance; [reflexivity | assumption |].
      apply add_not_nan; auto.
    + reflexivity.
  - intros Hle. exists (inc_balance (- a) u). split_and!.
    + apply withdraw_found; [assumption | assumption |].
      apply ltb_antisym. assumption.
    + run_async. rewrite Hfound. simpl.
      rewrite (ltb_antisym _ _ Hle). simpl.
      rewrite validate_dec_balance; [| assumption |].
      * rewrite dec_balance_inc_balance, (sub_add_opp (balance u) a).
        reflexivity.
      * apply sub_not_nan; auto.
    + apply balance_inc_opp.
Qed.

Lemma dal_and_repository_agree_witness :
  (exists u' : User,
     dal.deposit "mary@x.com" 20 [jane70; mary50]
     = (<[1%nat := u']> [jane70; mary50], Return (Some u'))
     /\ UserRepository.deposit sample_describe "mary@x.com" 20 [jane70; mary50]
        = (<[1%nat := u']> [jane70; mary50], Return (Some (balance u')))
     /\ balance u' = (balance mary50 + 20)%float)
  /\ ((20 <=? balance mary50)%float = true ->
       exists u' : User,
         dal.withdraw "mary@x.com" 20 [jane70; mary50]
         = (<[1%nat := u']> [jane70; mary50], Return (Some u'))
         /\ UserRepository.withdraw sample_describe "mary@x.com" 20 [jane70; mary50]
            = (<[1%nat := u']> [jane70; mary50], Return (Some (balance u')))
         /\ balance u' = (balance mary50 - 20)%float).
Proof.
  apply (dal_and_repository_agree sample_describe
           [jane70; mary50] "mary@x.com" 20 1 mary50).
  - reflexivity.
  - reflexivity.
  - reflexivity.
  - reflexivity.
Defined.

Example scenario_create :
  dal.create "John" "john@x.com" "pw" [] = ([john0], Return john0).
Proof. reflexivity. Qed.

(** The pattern of the schema on some strings; the last three hold a line
    feed, U+2028 (the bytes 226 128 168) and U+2027 (226 128 167) as the
    only character after the dot. *)
Example email_tests :
  map EmailPattern.test
    ["john@x.com"; "john"; "a@b.c"; "@b.c"; "a@.c"; "a@b."; "a@b.."; "a@@.c";
     "xx a@b.c yy";
     String "a" (String "@" (String "b" (String "." (String "010" EmptyString))));
     String "a" (String "@" (String "b" (String "."
       (String "226" (String "128" (String "168" EmptyString))))));
     String "a" (String "@" (String "b" (String "."
       (String "226" (String "128" (String "167" EmptyString))))))]
  = [true; false; true; false; false; false; true; true; true;
     false; false; true].
Proof. reflexivity. Qed.

Example scenario_spec :
  run_operations [] [Create "John" "john@x.com" "pw"; Deposit "john@x.com" 100;
                     Withdraw "john@x.com" 50; Withdraw "john@x.com" 100]
  = [mkUser "John" "john@x.com" "pw" 50 None None].
Proof. reflexivity. Qed.

(** * Further properties of the code *)

(** ** dal.js: how the store functions compose *)

Lemma deposit_touches (s : users) (e : string) (a : float) :
  touched_first_match e s (stored (dal.deposit e a s)).
Proof.
  destruct (list_find (Collection.matches e) s) as [[i u]|] eqn:Hfind.
  - right. exists i, u, (inc_balance a u). split; [assumption|].
    destruct (a <=? 0)%float eqn:Ha.
    + rewrite (deposit_found_invalid s e a i u) by assumption. reflexivity.
    + rewrite (deposit_found s e a i u) by assumption. reflexivity.
  - left. destruct (a <=? 0)%float eqn:Ha.
    + rewrite (deposit_absent_invalid s e a) by assumption. reflexivity.
    + rewrite (deposit_absent s e a) by assumption. reflexivity.
Qed.

Lemma withdraw_touches (s : users) (e : string) (a : float) :
  touched_first_match e s (stored (dal.withdraw e a s)).
Proof.
  destruct (withdraw_cases s e a) as [[err ->] | (i & u & Hfind & _ & _ & ->)].
  - left. reflexivity.
  - right. exists i, u, (inc_balance (- a) u). split; [assumption | reflexivity].
Qed.

Lemma update_touches (s : users) (e : string) (d : UserData) :
  touched_first_match e s (stored (dal.update e d s)).
Proof.
  destruct (list_find (Collection.matches e) s) as [[i u]|] eqn:Hfind.
  - right. exists i, u, (set_fields d u). split; [assumption|].
    rewrite (update_found s e d i u Hfind). reflexivity.
  - left. rewrite (update_absent s e d Hfind). reflexivity.
Qed.

Lemma touched_first_match_frame (e : string) (s s' : users) :
  touched_first_match e s s' ->
  length s' = length s
  /\ (forall (j : nat) (v : User),
        s !! j = Some v -> email v <> e -> s' !! j = Some v).
Proof.
  intros [-> | (i & u & u' & Hfind & ->)]; [auto|].
  split; [apply length_insert|].
  intros j v Hj Hv. rewrite list_lookup_insert_ne; [assumption|].
  intros <-. apply Hv.
  pose proof (first_match_lookup s e i u Hfind) as Hi.
  rewrite Hi in Hj. injection Hj as <-.
  eapply first_match_email; eassumption.
Qed.

(** X3: whatever their arguments and whether they return or throw,
    [deposit], [withdraw] and [update] called with an email neither add nor
    remove a record, and they leave every record with another email as it
    was. *)
Theorem store_calls_frame (s : users) (e : string) (a : float) (d : UserData) :
  (length (stored (dal.deposit e a s)) = length s
   /\ length (stored (dal.withdraw e a s)) = length s
   /\ length (stored (dal.update e d s)) = length s)
  /\ (forall (j : nat) (v : User),
        s !! j = Some v -> email v <> e ->
        stored (dal.deposit e a s) !! j = Some v
        /\ stored (dal.withdraw e a s) !! j = Some v
        /\ stored (dal.update e d s) !! j = Some v).
Proof.
  destruct (touched_first_match_frame e s _ (deposit_touches s e a)) as [L1 F1].
  destruct (touched_first_match_frame e s _ (withdraw_touches s e a)) as [L2 F2].
  destruct (touched_first_match_frame e s _ (update_touches s e d)) as [L3 F3].
  split; [auto|]. intros j v Hj Hv. auto.
Qed.

(** ** dal.js: [create] with [find], [findOne] and [all] *)

Lemma filter_first_match (s : users) (e : string) (i : nat) (u : User) :
  list_find (Collection.matches e) s = Some (i, u) ->
  exists rest : list User, filter (Collection.matches e) s = u :: rest.
Proof.
  revert i. induction s as [|x s IH]; intros i H; [discriminate|].
  simpl in H. rewrite filter_cons. destruct (decide (Collection.matches e x)).
  - injection H as <- <-. eauto.
  - destruct (list_find (Collection.matches e) s) as [[j v]|] eqn:Hs;
      [|discriminate].
    simpl in H. injection H as <- <-. apply (IH j). reflexivity.
Qed.

(** X4: [create] refuses nothing: it puts the record with balance 0 at the
    end, so [find] gives the older records with the email followed by the
    new one and [all] gives the collection with the new record last.
    [findOne] keeps giving the oldest record with the email; it gives the
    new record only when the email was absent. *)
Theorem create_then_find (s : users) (n e p : string) :
  dal.create n e p s
  = (s ++ [mkUser n e p 0 None None], Return (mkUser n e p 0 None None))
  /\ completed (dal.find e (stored (dal.create n e p s)))
     = Return (filter (Collection.matches e) s ++ [mkUser n e p 0 None None])
  /\ completed (dal.all (stored (dal.create n e p s)))
     = Return (s ++ [mkUser n e p 0 None None])
  /\ (forall (i : nat) (u : User),
        list_find (Collection.matches e) s = Some (i, u) ->
        completed (dal.findOne e (stored (dal.create n e p s)))
        = Return (Some u))
  /\ ((forall u, u ∈ s -> email u <> e) ->
       completed (dal.findOne e (stored (dal.create n e p s)))
       = Return (Some (mkUser n e p 0 None None))).
Proof.
  split_and!; try reflexivity.
  - run_async. simpl. rewrite filter_app, filter_cons, decide_True by reflexivity.
    reflexivity.
  - intros i u Hfind. run_async. simpl.
    rewrite (list_find_app_l _ _ _ _ _ Hfind). reflexivity.
  - intros Habsent. apply first_match_none in Habsent. run_async. simpl.
    rewrite (list_find_app_r _ _ _ Habsent). simpl.
    rewrite decide_True by reflexivity. reflexivity.
Qed.

Lemma create_then_find_witness :
  dal.create "John" "john@x.com" "pw2" [jane70; john50]
  = ([jane70; john50; mkUser "John" "john@x.com" "pw2" 0 None None],
     Return (mkUser "John" "john@x.com" "pw2" 0 None None))
  /\ completed (dal.find "john@x.com"
                  (stored (dal.create "John" "john@x.com" "pw2" [jane70; john50])))
     = Return [john50; mkUser "John" "john@x.com" "pw2" 0 None None]
  /\ completed (dal.findOne "john@x.com"
                  (stored (dal.create "John" "john@x.com" "pw2" [jane70; john50])))
     = Return (Some john50).
Proof.
  destruct (create_then_find [jane70; john50] "John" "john@x.com" "pw2")
    as (Hcreate & Hfind & _ & Hold & _).
  split_and!; [exact Hcreate | exact Hfind |].
  apply (Hold 1%nat john50). reflexivity.
Defined.

(** ** accountController.js: registration and login *)

Section Registration.

Variable bcrypt_hash : string -> Z -> option string.
Variable bcrypt_compare : string -> string -> option bool.
Variable jwt_sign : string -> string.

Lemma find_nonempty (s : users) (e : string) :
  (exists u, u ∈ s /\ email u = e) ->
  exists u rest, filter (Collection.matches e) s = u :: rest.
Proof.
  intros Hex. apply first_match_exists in Hex as (i & u & Hfind).
  destruct (filter_first_match s e i u Hfind) as [rest Hrest]. eauto.
Qed.

(** The outcomes of the route [/create], one request at a time. *)
Lemma post_create_taken (s : users) (n e p : string) :
  (exists u, u ∈ s /\ email u = e) ->
  accountController.post_create bcrypt_hash n e p s
  = (s, Return (status_json 409 (JObj [("message", JStr "User already exists")]))).
Proof.
  unfold accountController.post_create.
  intros Hex. destruct (find_nonempty s e Hex) as (u & rest & Hf).
  run_async. rewrite Hf. reflexivity.
Qed.

Lemma post_create_stores (s : users) (n e p hash : string) :
  (forall u, u ∈ s -> email u <> e) ->
  bcrypt_hash p 10 = Some hash ->
  accountController.post_create bcrypt_hash n e p s
  = (s ++ [mkUser n e hash 0 None None],
     Return (status_json 201 (user_json (mkUser n e hash 0 None None)))).
Proof.
  unfold accountController.post_create, accountController.saltRounds.
  intros Habsent Hh. run_async.
  rewrite (filter_absent s e Habsent). simpl. rewrite Hh. reflexivity.
Qed.

Lemma post_create_hash_fails (s : users) (n e p : string) :
  (forall u, u ∈ s -> email u <> e) ->
  bcrypt_hash p 10 = None ->
  accountController.post_create bcrypt_hash n e p s
  = (s, Return (status_json 500
                  (JObj [("message", JStr "Error hashing password")]))).
Proof.
  unfold accountController.post_create, accountController.saltRounds.
  intros Habsent Hh. run_async.
  rewrite (filter_absent s e Habsent). simpl. rewrite Hh. reflexivity.
Qed.

(** X5: the route [/create] answers 409 and writes nothing when a record
    has the email; otherwise it stores one record with the name, the email,
    the hash in place of the password and balance 0, and answers 201 with
    it; when hashing fails it answers 500 and writes nothing. *)
Theorem post_create_outcomes (s : users) (n e p : string) :
  ((exists u, u ∈ s /\ email u = e) ->
     accountController.post_create bcrypt_hash n e p s
     = (s, Return (status_json 409 (JObj [("message", JStr "User already exists")]))))
  /\ ((forall u, u ∈ s -> email u <> e) ->
       forall hash : string,
         bcrypt_hash p 10 = Some hash ->
         accountController.post_create bcrypt_hash n e p s
         = (s ++ [mkUser n e hash 0 None None],
            Return (status_json 201 (user_json (mkUser n e hash 0 None None)))))
  /\ ((forall u, u ∈ s -> email u <> e) ->
       bcrypt_hash p 10 = None ->
       accountController.post_create bcrypt_hash n e p s
       = (s, Return (status_json 500
                       (JObj [("message", JStr "Error hashing password")])))).
Proof.
  split_and!.
  - apply post_create_taken.
  - intros Habsent hash Hh. apply post_create_stores; assumption.
  - apply post_create_hash_fails.
Qed.

(** The route is its two turns, run back to back. *)
Lemma post_create_turns (s : users) (n e p : string) :
  accountController.post_create bcrypt_hash n e p s
  = bind (accountController.post_create_lookup e)
      (accountController.post_create_resume bcrypt_hash n e p) s.
Proof.
  unfold accountController.post_create, accountController.post_create_lookup,
    accountController.post_create_resume,
    accountController.post_create_callback.
  run_async.
  destruct (0 <? Z.of_nat (length (filter (Collection.matches e) s)));
    [reflexivity|].
  destruct (bcrypt_hash p accountController.saltRounds); reflexivity.
Qed.

(** X6: a request to [/create] whose two turns run back to back, with no
    other request between them, keeps the emails of the collection
    distinct.  It is no invariant of the server: of two requests for one
    free email, the second looked up before the callback of the first has
    run, both answer 201 and both insert, which leaves two records with the
    email. *)
Theorem post_create_keeps_emails_distinct
    (s : users) (n e p : string) (Hdistinct : NoDup (email <$> s)) :
  accountController.post_create bcrypt_hash n e p s
  = bind (accountController.post_create_lookup e)
      (accountController.post_create_resume bcrypt_hash n e p) s
  /\ NoDup (email <$> stored (accountController.post_create bcrypt_hash n e p s))
  /\ (forall n2 p2 hash hash2 : string,
        (forall u, u ∈ s -> email u <> e) ->
        bcrypt_hash p 10 = Some hash -> bcrypt_hash p2 10 = Some hash2 ->
        accountController.post_create_overlapping bcrypt_hash n e p n2 e p2 s
        = (s ++ [mkUser n e hash 0 None None; mkUser n2 e hash2 0 None None],
           Return (status_json 201 (user_json (mkUser n e hash 0 None None)),
                   status_json 201 (user_json (mkUser n2 e hash2 0 None None))))
        /\ ~ NoDup (email <$> stored
                      (accountController.post_create_overlapping
                         bcrypt_hash n e p n2 e p2 s))).
Proof.
  split_and!.
  - apply post_create_turns.
  - destruct (list_find (Collection.matches e) s) as [[i u]|] eqn:Hfind.
    + rewrite post_create_taken; [assumption|].
      apply first_match_exists. eauto.
    + pose proof (proj2 (first_match_none s e) Hfind) as Hfree.
      destruct (bcrypt_hash p 10) as [hash|] eqn:Hh.
      * rewrite (post_create_stores s n e p hash Hfree Hh). unfold stored. simpl.
        rewrite fmap_app. simpl. apply NoDup_app. split_and!.
        -- assumption.
        -- intros x Hx Hx'. apply list_elem_of_singleton in Hx'. subst x.
           apply list_elem_of_fmap in Hx as (u & Hu & Hin).
           apply (Hfree u Hin). symmetry. exact Hu.
        -- apply NoDup_singleton.
      * rewrite (post_create_hash_fails s n e p Hfree Hh). assumption.
  - intros n2 p2 hash hash2 Hfree Hh Hh2.
    assert (Hrun : accountController.post_create_overlapping
                     bcrypt_hash n e p n2 e p2 s
                   = (s ++ [mkUser n e hash 0 None None;
                            mkUser n2 e hash2 0 None None],
                      Return (status_json 201
                                (user_json (mkUser n e hash 0 None None)),
                              status_json 201
                                (user_json (mkUser n2 e hash2 0 None None))))).
    { unfold accountController.post_create_overlapping,
        accountController.post_create_lookup,
        accountController.post_create_resume,
        accountController.post_create_callback, accountController.saltRounds.
      run_async. rewrite (filter_absent s e Hfree). simpl.
      rewrite (filter_absent s e Hfree). simpl.
      rewrite Hh, Hh2. simpl. rewrite <- app_assoc. reflexivity. }
    split; [exact Hrun|].
    rewrite Hrun. unfold stored. simpl. rewrite fmap_app. simpl.
    intros Hdup. apply NoDup_app in Hdup as (_ & _ & Hdup).
    apply NoDup_cons in Hdup as [Hdup _]. apply Hdup. left.
Qed.

(** The outcomes of the route [/login]. *)
Lemma post_login_reads_only (s : users) (e p : string) :
  stored (accountController.post_login bcrypt_compare jwt_sign e p s) = s.
Proof.
  unfold accountController.post_login.
  run_async. destruct (filter (Collection.matches e) s) as [|[] rest];
    [reflexivity|].
  destruct (bcrypt_compare p _) as [[]|]; reflexivity.
Qed.

Lemma post_login_absent (s : users) (e p : string) :
  (forall u, u ∈ s -> email u <> e) ->
  completed (accountController.post_login bcrypt_compare jwt_sign e p s)
  = Return (accountController.plain
              (status_json 404 (JObj [("message", JStr "User not found")]))).
Proof.
  unfold accountController.post_login.
  intros Habsent. run_async. rewrite (filter_absent s e Habsent). reflexivity.
Qed.

Lemma post_login_refused (s : users) (e p : string) (i : nat) (u : User) :
  list_find (Collection.matches e) s = Some (i, u) ->
  bcrypt_compare p (password u) <> Some true ->
  completed (accountController.post_login bcrypt_compare jwt_sign e p s)
  = Return (accountController.plain
              (status_json 401
                 (JObj [("message", JStr "Authentication failed")]))).
Proof.
  unfold accountController.post_login.
  intros Hfind Hcmp.
  destruct (filter_first_match s e i u Hfind) as [rest Hf].
  run_async. rewrite Hf. destruct u as [un ue up ub ut ua]. simpl in *.
  destruct (bcrypt_compare p up) as [[]|]; try reflexivity. congruence.
Qed.

Lemma post_login_accepted (s : users) (e p : string) (i : nat) (u : User) :
  list_find (Collection.matches e) s = Some (i, u) ->
  bcrypt_compare p (password u) = Some true ->
  completed (accountController.post_login bcrypt_compare jwt_sign e p s)
  = Return (accountController.mkReply
              (Some ("Bearer " +:+ jwt_sign e))
              (res_json
                 (JObj [("message", JStr "Login successful");
                        ("user", JObj [("email", JStr e);
                                       ("name", JStr (name u))])]))).
Proof.
  unfold accountController.post_login.
  intros Hfind Hcmp.
  destruct (filter_first_match s e i u Hfind) as [rest Hf].
  pose proof (first_match_email s e i u Hfind) as He.
  run_async. rewrite Hf. destruct u as [un ue up ub ut ua]. simpl in *.
  rewrite Hcmp. subst ue. reflexivity.
Qed.

(** X7: the route [/login] never writes.  It answers 404 when no record has
    the email and 401 when [bcrypt.compare] fails or does not match the
    oldest record's password; on a match it answers 200 with the header
    [Bearer <token signed for the email>] and a body that holds the email
    and the name and nothing else of the record. *)
Theorem post_login_outcomes (s : users) (e p : string) :
  stored (accountController.post_login bcrypt_compare jwt_sign e p s) = s
  /\ ((forall u, u ∈ s -> email u <> e) ->
       completed (accountController.post_login bcrypt_compare jwt_sign e p s)
       = Return (accountController.plain
                   (status_json 404 (JObj [("message", JStr "User not found")]))))
  /\ (forall (i : nat) (u : User),
        list_find (Collection.matches e) s = Some (i, u) ->
        bcrypt_compare p (password u) <> Some true ->
        completed (accountController.post_login bcrypt_compare jwt_sign e p s)
        = Return (accountController.plain
                    (status_json 401
                       (JObj [("message", JStr "Authentication failed")]))))
  /\ (forall (i : nat) (u : User),
        list_find (Collection.matches e) s = Some (i, u) ->
        bcrypt_compare p (password u) = Some true ->
        completed (accountController.post_login bcrypt_compare jwt_sign e p s)
        = Return (accountController.mkReply
                    (Some ("Bearer " +:+ jwt_sign e))
                    (res_json
                       (JObj [("message", JStr "Login successful");
                              ("user", JObj [("email", JStr e);
                                             ("name", JStr (name u))])])))).
Proof.
  split_and!.
  - apply post_login_reads_only.
  - apply post_login_absent.
  - apply post_login_refused.
  - apply post_login_accepted.
Qed.

(** X8: registering on a free email and then logging in with the same
    password succeeds, provided [bcrypt.compare] accepts the password
    against the hash [bcrypt.hash] gave. *)
Theorem register_then_login
    (s : users) (n e p hash : string)
    (Hfree : forall u, u ∈ s -> email u <> e)
    (Hhash : bcrypt_hash p 10 = Some hash)
    (Hcompare : bcrypt_compare p hash = Some true) :
  completed
    (accountController.post_login bcrypt_compare jwt_sign e p
       (stored (accountController.post_create bcrypt_hash n e p s)))
  = Return (accountController.mkReply
              (Some ("Bearer " +:+ jwt_sign e))
              (res_json
                 (JObj [("message", JStr "Login successful");
                        ("user", JObj [("email", JStr e); ("name", JStr n)])]))).
Proof.
  rewrite (post_create_stores s n e p hash Hfree Hhash). unfold stored. simpl.
  apply (post_login_accepted (s ++ [mkUser n e hash 0 None None]) e p
           (length s) (mkUser n e hash 0 None None)); [|assumption].
  apply first_match_none in Hfree.
  rewrite (list_find_app_r _ _ _ Hfree). simpl.
  rewrite decide_True by reflexivity. simpl. reflexivity.
Qed.

End Registration.

Lemma post_create_outcomes_witness :
  accountController.post_create sample_hash "Johnny" "john@x.com" "pw" [jane70; john50]
  = ([jane70; john50],
     Return (status_json 409 (JObj [("message", JStr "User already exists")])))
  /\ accountController.post_create sample_hash "Ann" "ann@x.com" "pw" [jane70; john50]
     = ([jane70; john50; mkUser "Ann" "ann@x.com" "$2b$pw" 0 None None],
        Return (status_json 201
                  (user_json (mkUser "Ann" "ann@x.com" "$2b$pw" 0 None None)))).
Proof.
  split.
  - apply (post_create_outcomes sample_hash [jane70; john50] "Johnny" "john@x.com" "pw").
    apply first_match_exists. exists 1%nat, john50. reflexivity.
  - apply (post_create_outcomes sample_hash [jane70; john50] "Ann" "ann@x.com" "pw").
    + apply first_match_none. reflexivity.
    + reflexivity.
Defined.

Lemma post_create_keeps_emails_distinct_witness :
  NoDup (email <$> [jane70; john50])
  /\ NoDup (email <$> stored (accountController.post_create
                                sample_hash "Ann" "ann@x.com" "pw" [jane70; john50]))
  /\ ~ NoDup (email <$> stored (accountController.post_create_overlapping
                                  sample_hash "Ann" "ann@x.com" "pw"
                                  "Anna" "ann@x.com" "pw2" [jane70; john50])).
Proof.
  assert (Hdistinct : NoDup (email <$> [jane70; john50])).
  { simpl. apply (bool_decide_unpack _). vm_compute. exact I. }
  destruct (post_create_keeps_emails_distinct
              sample_hash [jane70; john50] "Ann" "ann@x.com" "pw" Hdistinct)
    as (_ & Hkept & Hoverlap).
  split_and!; [exact Hdistinct | exact Hkept |].
  apply (Hoverlap "Anna" "pw2" "$2b$pw" "$2b$pw2").
  - apply first_match_none. reflexivity.
  - reflexivity.
  - reflexivity.
Defined.

Lemma post_login_outcomes_witness :
  completed (accountController.post_login sample_compare sample_sign
               "john@x.com" "pw"
               [jane70; mkUser "John" "john@x.com" "$2b$pw" 50 None None])
  = Return (accountController.mkReply
              (Some "Bearer jwt.john@x.com")
              (res_json
                 (JObj [("message", JStr "Login successful");
                        ("user", JObj [("email", JStr "john@x.com");
                                       ("name", JStr "John")])])))
  /\ completed (accountController.post_login sample_compare sample_sign
                  "john@x.com" "other"
                  [jane70; mkUser "John" "john@x.com" "$2b$pw" 50 None None])
     = Return (accountController.plain
                 (status_json 401
                    (JObj [("message", JStr "Authentication failed")]))).
Proof.
  split.
  - apply (post_login_outcomes sample_compare sample_sign
             [jane70; mkUser "John" "john@x.com" "$2b$pw" 50 None None]
             "john@x.com" "pw")
      with (i := 1%nat) (u := mkUser "John" "john@x.com" "$2b$pw" 50 None None);
      reflexivity.
  - apply (post_login_outcomes sample_compare sample_sign
             [jane70; mkUser "John" "john@x.com" "$2b$pw" 50 None None]
             "john@x.com" "other")
      with (i := 1%nat) (u := mkUser "John" "john@x.com" "$2b$pw" 50 None None).
    + reflexivity.
    + vm_compute. discriminate.
Defined.

Lemma register_then_login_witness :
  completed
    (accountController.post_login sample_compare sample_sign "ann@x.com" "pw"
       (stored (accountController.post_create
                  sample_hash "Ann" "ann@x.com" "pw" [jane70; john50])))
  = Return (accountController.mkReply
              (Some ("Bearer " +:+ sample_sign "ann@x.com"))
              (res_json
                 (JObj [("message", JStr "Login successful");
                        ("user", JObj [("email", JStr "ann@x.com");
                                       ("name", JStr "Ann")])]))).
Proof.
  apply (register_then_login sample_hash sample_compare sample_sign
           [jane70; john50] "Ann" "ann@x.com" "pw" "$2b$pw").
  - apply first_match_none. reflexivity.
  - reflexivity.
  - reflexivity.
Defined.

(** ** The middlewares *)

Lemma split_nonempty (sep : ascii) (s : string) : split sep s <> [].
Proof.
  induction s as [|c s IH]; simpl; [discriminate|].
  destruct (c =? sep)%char; [discriminate|].
  destruct (split sep s); [contradiction | discriminate].
Qed.

Lemma split_without_separator (sep : ascii) (s : string) :
  contains sep s = false -> split sep s = [s].
Proof.
  induction s as [|c s IH]; simpl; [reflexivity|].
  intros H. apply orb_false_iff in H as [Hc Hs].
  rewrite Hc, (IH Hs). reflexivity.
Qed.

Lemma split_at_first_separator (sep : ascii) (s t : string) :
  contains sep s = false ->
  split sep (s +:+ String sep t) = s :: split sep t.
Proof.
  induction s as [|c s IH]; simpl; intros H.
  - rewrite Ascii.eqb_refl. reflexivity.
  - apply orb_false_iff in H as [Hc Hs]. rewrite Hc.
    change (String.append s (String sep t)) with (s +:+ String sep t).
    rewrite (IH Hs). reflexivity.
Qed.

(** X9: [validateUser] lets a request through exactly when [email] and
    [password] are both truthy in the body; otherwise it answers 400 with
    the missing names, [email] before [password], in its message. *)
Theorem validateUser_outcomes (body : Body) :
  validationMiddleware.validateUser body
  = match truthy (body !! "email"), truthy (body !! "password") with
    | true, true => Continue tt
    | false, true =>
        Respond (status_json 400
                   (JObj [("message", JStr "Missing required fields: email")]))
    | true, false =>
        Respond (status_json 400
                   (JObj [("message", JStr "Missing required fields: password")]))
    | false, false =>
        Respond (status_json 400
                   (JObj [("message",
                           JStr "Missing required fields: email, password")]))
    end.
Proof.
  unfold validationMiddleware.validateUser, validationMiddleware.missingFields,
    validationMiddleware.requiredFields.
  simpl.
  destruct (truthy (body !! "email")), (truthy (body !! "password")); reflexivity.
Qed.

(** What [authenticateToken] does with the [Authorization] header. *)
Lemma authenticateToken_accepts
    {Payload : Type} (jwt_verify : string -> option Payload)
    (authHeader : option string) (payload : Payload) :
  authMiddleware.authenticateToken jwt_verify authHeader = Continue payload
  <-> exists h token : string,
        authHeader = Some h
        /\ split " " h !! 1%nat = Some token
        /\ token <> ""
        /\ jwt_verify token = Some payload.
Proof.
  unfold authMiddleware.authenticateToken, authMiddleware.token_of,
    authMiddleware.no_token.
  split.
  - destruct authHeader as [h|]; [|discriminate].
    destruct (String.eqb_spec h "") as [->|Hh]; [discriminate|].
    destruct (split " " h !! 1%nat) as [token|] eqn:Htok; [|discriminate].
    destruct (String.eqb_spec token "") as [->|Ht]; [discriminate|].
    simpl. destruct (jwt_verify token) as [pl|] eqn:Hv; [|discriminate].
    intros [= <-]. exists h, token. auto.
  - intros (h & token & -> & Htok & Ht & Hv).
    destruct (String.eqb_spec h "") as [->|Hh]; [discriminate|].
    rewrite Htok.
    destruct (String.eqb_spec token "") as [->|_]; [contradiction|].
    simpl. rewrite Hv. reflexivity.
Qed.

Lemma authenticateToken_refuses
    {Payload : Type} (jwt_verify : string -> option Payload)
    (authHeader : option string) (r : Response) :
  authMiddleware.authenticateToken jwt_verify authHeader = Respond r ->
  status r = 401.
Proof.
  unfold authMiddleware.authenticateToken, authMiddleware.token_of,
    authMiddleware.no_token.
  destruct authHeader as [h|]; [|intros [= <-]; reflexivity].
  destruct (String.eqb h ""); [intros [= <-]; reflexivity|].
  destruct (split " " h !! 1%nat) as [token|]; [|intros [= <-]; reflexivity].
  destruct (String.eqb token ""); [intros [= <-]; reflexivity|].
  simpl. destruct (jwt_verify token); [discriminate|].
  intros [= <-]. reflexivity.
Qed.

(** X10: [authenticateToken] calls [next] exactly when the header has a
    second piece between spaces, that piece is not empty and [jwt.verify]
    accepts it, the payload going to [req.user]; in every other case it
    answers 401.  The first piece of the header is not looked at. *)
Theorem authenticateToken_outcomes
    {Payload : Type} (jwt_verify : string -> option Payload)
    (authHeader : option string) :
  (forall payload : Payload,
     authMiddleware.authenticateToken jwt_verify authHeader = Continue payload
     <-> exists h token : string,
           authHeader = Some h
           /\ split " " h !! 1%nat = Some token
           /\ token <> ""
           /\ jwt_verify token = Some payload)
  /\ (forall r : Response,
        authMiddleware.authenticateToken jwt_verify authHeader = Respond r ->
        status r = 401).
Proof.
  split.
  - intros payload. apply authenticateToken_accepts.
  - intros r. apply authenticateToken_refuses.
Qed.

Lemma authenticateToken_outcomes_witness :
  authMiddleware.authenticateToken sample_verify (Some "Basic jwt.john@x.com")
  = Continue "john@x.com"
  /\ (forall r : Response,
        authMiddleware.authenticateToken sample_verify (Some "Bearer") = Respond r ->
        status r = 401).
Proof.
  split.
  - apply (authenticateToken_outcomes sample_verify (Some "Basic jwt.john@x.com")).
    exists "Basic jwt.john@x.com", "jwt.john@x.com".
    split_and!; [reflexivity | reflexivity | discriminate | reflexivity].
  - apply (authenticateToken_outcomes sample_verify (Some "Bearer")).
Defined.

(** X11: the header the route [/login] sets passes [authenticateToken]: when
    the login succeeds and the signed token is not empty, holds no space
    and is accepted by [jwt.verify], the middleware calls [next] with the
    payload of that token. *)
Theorem login_header_passes_authentication
    {Payload : Type}
    (bcrypt_compare : string -> string -> option bool)
    (jwt_sign : string -> string) (jwt_verify : string -> option Payload)
    (s : users) (e p : string) (i : nat) (u : User) (payload : Payload)
    (Hfound : list_find (Collection.matches e) s = Some (i, u))
    (Hcompare : bcrypt_compare p (password u) = Some true)
    (Hspace : contains " " (jwt_sign e) = false)
    (Hnonempty : jwt_sign e <> "")
    (Hverify : jwt_verify (jwt_sign e) = Some payload) :
  exists reply : accountController.Reply,
    completed (accountController.post_login bcrypt_compare jwt_sign e p s)
    = Return reply
    /\ authMiddleware.authenticateToken jwt_verify
         (accountController.authorization reply)
       = Continue payload.
Proof.
  eexists.
  split; [exact (post_login_accepted bcrypt_compare jwt_sign s e p i u
                   Hfound Hcompare)|].
  simpl. apply authenticateToken_accepts.
  exists ("Bearer " +:+ jwt_sign e), (jwt_sign e). split_and!; try assumption.
  - reflexivity.
  - change ("Bearer " +:+ jwt_sign e) with ("Bearer" +:+ String " " (jwt_sign e)).
    rewrite split_at_first_separator by reflexivity.
    rewrite (split_without_separator _ _ Hspace). reflexivity.
Qed.

Lemma login_header_passes_authentication_witness :
  exists reply : accountController.Reply,
    completed (accountController.post_login sample_compare sample_sign
                 "john@x.com" "pw"
                 [jane70; mkUser "John" "john@x.com" "$2b$pw" 50 None None])
    = Return reply
    /\ authMiddleware.authenticateToken sample_verify
         (accountController.authorization reply)
       = Continue "john@x.com".
Proof.
  apply (login_header_passes_authentication sample_compare sample_sign sample_verify
           [jane70; mkUser "John" "john@x.com" "$2b$pw" 50 None None]
           "john@x.com" "pw" 1
           (mkUser "John" "john@x.com" "$2b$pw" 50 None None) "john@x.com").
  - reflexivity.
  - reflexivity.
  - reflexivity.
  - discriminate.
  - reflexivity.
Defined.

(** ** controllers/transactionController.js and controllers/userController.js *)

(** X12: the route [/secure-data] answers 400 whenever [email] or
    [password] is missing from the body, whatever the token; with both
    present it answers 401 unless the token is verified, and then it
    answers 200 with the fixed message. *)
Theorem secure_data_outcomes
    {Payload : Type} (jwt_verify : string -> option Payload)
    (body : Body) (authHeader : option string) :
  (truthy (body !! "email") && truthy (body !! "password") = false ->
     status (transactionController.get_secure_data jwt_verify body authHeader) = 400)
  /\ (truthy (body !! "email") && truthy (body !! "password") = true ->
       (forall r : Response,
          authMiddleware.authenticateToken jwt_verify authHeader = Respond r ->
          transactionController.get_secure_data jwt_verify body authHeader = r
          /\ status r = 401)
       /\ (forall payload : Payload,
             authMiddleware.authenticateToken jwt_verify authHeader
             = Continue payload ->
             transactionController.get_secure_data jwt_verify body authHeader
             = res_json (JObj [("message", JStr "Secure data")]))).
Proof.
  unfold transactionController.get_secure_data.
  unfold validationMiddleware.validateUser, validationMiddleware.missingFields,
      validationMiddleware.requiredFields. simpl.
  destruct (truthy (body !! "email")), (truthy (body !! "password")); simpl;
    split; try discriminate; try reflexivity.
  intros _. split.
  - intros r Hr. rewrite Hr. split; [reflexivity|].
    eapply authenticateToken_refuses; eassumption.
  - intros payload Hp. rewrite Hp. reflexivity.
Qed.

Lemma secure_data_outcomes_witness :
  status (transactionController.get_secure_data sample_verify
            {[ "email" := BStr "john@x.com" ]} (Some "Bearer jwt.john@x.com"))
  = 400
  /\ transactionController.get_secure_data sample_verify
       {[ "email" := BStr "john@x.com"; "password" := BStr "pw" ]}
       (Some "Bearer jwt.john@x.com")
     = res_json (JObj [("message", JStr "Secure data")]).
Proof.
  split.
  - apply (secure_data_outcomes sample_verify
             {[ "email" := BStr "john@x.com" ]} (Some "Bearer jwt.john@x.com")).
    vm_compute. reflexivity.
  - apply (secure_data_outcomes sample_verify
             {[ "email" := BStr "john@x.com"; "password" := BStr "pw" ]}
             (Some "Bearer jwt.john@x.com"))
      with (payload := "john@x.com").
    + vm_compute. reflexivity.
    + vm_compute. reflexivity.
Defined.

(** X13: the routes [GET /] and [POST /] of the two controllers call
    [dal.getAllTransactions] and [dal.createTransaction], which dal.js does
    not export; so they never answer 200 or 201 and never write: the answer
    is 400 when [validateUser] stops the request and 500 otherwise. *)
Theorem transaction_routes_never_succeed (body : Body) (s : users) :
  ("getAllTransactions" ∉ transactionController.dal_exports)
  /\ ("createTransaction" ∉ transactionController.dal_exports)
  /\ (exists r : Response,
        transactionController.get_transactions body s = (s, Return r)
        /\ status r
           = if truthy (body !! "email") && truthy (body !! "password")
             then 500 else 400)
  /\ (exists r : Response,
        transactionController.post_transactions body s = (s, Return r)
        /\ status r
           = if truthy (body !! "email") && truthy (body !! "password")
             then 500 else 400).
Proof.
  split_and!.
  - apply (bool_decide_unpack _). vm_compute. exact I.
  - apply (bool_decide_unpack _). vm_compute. exact I.
  - unfold transactionController.get_transactions.
    unfold validationMiddleware.validateUser, validationMiddleware.missingFields,
      validationMiddleware.requiredFields. simpl.
    destruct (truthy (body !! "email")), (truthy (body !! "password"));
      eexists; split; reflexivity.
  - unfold transactionController.post_transactions.
    unfold validationMiddleware.validateUser, validationMiddleware.missingFields,
      validationMiddleware.requiredFields. simpl.
    destruct (truthy (body !! "email")), (truthy (body !! "password"));
      eexists; split; reflexivity.
Qed.

(** ** The connection of dal.js *)

(** Calls of [connectToMongo], one per outcome of [MongoClient.connect]. *)
Lemma connectToMongo_reuses (r : option exn) (w : mongoConnection.State) (d : nat) :
  mongoConnection.db w = Some d ->
  mongoConnection.connectToMongo r w
  = (w, Return (mongoConnection.mkHandles d (mongoConnection.client w))).
Proof. intros H. unfold mongoConnection.connectToMongo. rewrite H. reflexivity. Qed.

(** X14: once a connection is made, [disconnectFromMongo] closes the client
    but leaves the module variables set: a later [connectToMongo] makes no
    new call of [MongoClient.connect], whatever its outcome would be, and
    hands out the closed client again, as [getDb] hands out its handle. *)
Theorem no_reconnect_after_disconnect
    (w : mongoConnection.State) (r : option exn)
    (Hfresh : mongoConnection.db w = None) :
  mongoConnection.connectToMongo r
    (mongoConnection.disconnectFromMongo
       (fst (mongoConnection.connectToMongo None w)))
  = (mongoConnection.disconnectFromMongo
       (fst (mongoConnection.connectToMongo None w)),
     Return (mongoConnection.mkHandles (mongoConnection.connects w)
               (Some (mongoConnection.connects w))))
  /\ mongoConnection.connects w
     ∈ mongoConnection.closed
         (mongoConnection.disconnectFromMongo
            (fst (mongoConnection.connectToMongo None w)))
  /\ mongoConnection.connects
       (mongoConnection.disconnectFromMongo
          (fst (mongoConnection.connectToMongo None w)))
     = S (mongoConnection.connects w)
  /\ mongoConnection.getDb
       (mongoConnection.disconnectFromMongo
          (fst (mongoConnection.connectToMongo None w)))
     = Return (mongoConnection.connects w).
Proof.
  unfold mongoConnection.connectToMongo, mongoConnection.disconnectFromMongo,
    mongoConnection.getDb.
  rewrite Hfresh. simpl. split_and!; try reflexivity. apply list_elem_of_here.
Qed.

Lemma no_reconnect_after_disconnect_witness :
  mongoConnection.connectToMongo (Some (Error "connect ECONNREFUSED"))
    (mongoConnection.disconnectFromMongo
       (fst (mongoConnection.connectToMongo None mongoConnection.loaded)))
  = (mongoConnection.disconnectFromMongo
       (fst (mongoConnection.connectToMongo None mongoConnection.loaded)),
     Return (mongoConnection.mkHandles 0 (Some 0%nat)))
  /\ 0%nat ∈ mongoConnection.closed
              (mongoConnection.disconnectFromMongo
                 (fst (mongoConnection.connectToMongo None mongoConnection.loaded)))
  /\ mongoConnection.connects
       (mongoConnection.disconnectFromMongo
          (fst (mongoConnection.connectToMongo None mongoConnection.loaded)))
     = 1%nat
  /\ mongoConnection.getDb
       (mongoConnection.disconnectFromMongo
          (fst (mongoConnection.connectToMongo None mongoConnection.loaded)))
     = Return 0%nat.
Proof.
  apply (no_reconnect_after_disconnect mongoConnection.loaded
           (Some (Error "connect ECONNREFUSED"))).
  reflexivity.
Defined.

Lemma connect_each_connected
    (outcomes : list (option exn)) (w : mongoConnection.State) (d : nat) :
  mongoConnection.db w = Some d -> mongoConnection.connect_each outcomes w = w.
Proof.
  intros H. induction outcomes as [|r rs IH]; [reflexivity|].
  unfold mongoConnection.connect_each in *. simpl.
  rewrite (connectToMongo_reuses r w d H). exact IH.
Qed.

Lemma connect_each_fresh (outcomes : list (option exn)) :
  forall w : mongoConnection.State,
    mongoConnection.db w = None ->
    mongoConnection.db (mongoConnection.connect_each outcomes w)
    = (fun k => (mongoConnection.connects w + k)%nat)
        <$> mongoConnection.first_success outcomes
    /\ mongoConnection.connects (mongoConnection.connect_each outcomes w)
       = (mongoConnection.connects w
          + match mongoConnection.first_success outcomes with
            | Some k => S k
            | None => length outcomes
            end)%nat.
Proof.
  induction outcomes as [|[err|] rs IH]; intros w Hw.
  - simpl. rewrite Hw. split; [reflexivity | lia].
  - change (mongoConnection.connect_each (Some err :: rs) w)
      with (mongoConnection.connect_each rs
              (fst (mongoConnection.connectToMongo (Some err) w))).
    unfold mongoConnection.connectToMongo. rewrite Hw. simpl.
    match goal with
    | |- context [mongoConnection.connect_each rs ?w'] =>
        destruct (IH w' eq_refl) as [Hdb Hn]
    end.
    rewrite Hdb, Hn. simpl.
    destruct (mongoConnection.first_success rs) as [k|]; simpl; split;
      try reflexivity; try (f_equal; lia); lia.
  - change (mongoConnection.connect_each (None :: rs) w)
      with (mongoConnection.connect_each rs
              (fst (mongoConnection.connectToMongo None w))).
    unfold mongoConnection.connectToMongo at 1 2. rewrite Hw. simpl.
    rewrite (connect_each_connected rs _ (mongoConnection.connects w))
      by reflexivity.
    simpl. split; [f_equal; lia | lia].
Qed.

(** X15: [getDb] throws as long as every call of [connectToMongo] was
    rejected, each such call having made a new attempt to connect; from the
    first call that succeeds on it returns that call's handle, and no later
    call of [connectToMongo] makes a new attempt. *)
Theorem getDb_after_connects (outcomes : list (option exn)) :
  mongoConnection.getDb
    (mongoConnection.connect_each outcomes mongoConnection.loaded)
  = match mongoConnection.first_success outcomes with
    | Some k => Return k
    | None => Throw (Error "DB not initialized. Call connectToMongo first.")
    end
  /\ mongoConnection.connects
       (mongoConnection.connect_each outcomes mongoConnection.loaded)
     = match mongoConnection.first_success outcomes with
       | Some k => S k
       | None => length outcomes
       end.
Proof.
  destruct (connect_each_fresh outcomes mongoConnection.loaded eq_refl)
    as [Hdb Hn].
  unfold mongoConnection.getDb. rewrite Hdb, Hn. simpl.
  destruct (mongoConnection.first_success outcomes); simpl; split; reflexivity.
Qed.

(** ** repositories/userRepository.js *)

Lemma first_match_appended (s : users) (e : string) (x : User) :
  (forall u, u ∈ s -> email u <> e) -> email x = e ->
  list_find (Collection.matches e) (s ++ [x]) = Some (length s, x).
Proof.
  intros Hfree Hx. apply first_match_none in Hfree.
  rewrite (list_find_app_r _ _ _ Hfree). simpl.
  rewrite decide_True by exact Hx. reflexivity.
Qed.

(** What [createUser] does with a [userData] that passes the schema. *)
Lemma createUser_stores (describe : User -> string) (s : users) (d : UserData) :
  UserModel.validate (UserModel.new_User d) = [] ->
  UserRepository.createUser describe d s
  = (s ++ [UserModel.new_User d], Return (UserModel.new_User d)).
Proof.
  intros Hvalid. unfold UserRepository.createUser, UserModel.save_new.
  run_async. rewrite Hvalid. reflexivity.
Qed.

Lemma createUser_refuses (describe : User -> string) (s : users) (d : UserData) :
  UserModel.validate (UserModel.new_User d) <> [] ->
  UserRepository.createUser describe d s
  = (s, Throw (Error ("Error creating user: "
                      +:+ describe (UserModel.new_User d)))).
Proof.
  intros Hinvalid. unfold UserRepository.createUser, UserModel.save_new.
  run_async.
  destruct (UserModel.validate (UserModel.new_User d)) as [|err errs];
    [contradiction | reflexivity].
Qed.

(** X16: for a [newData] that sets neither [email] nor [accountNumber] (so
    that the unique indexes of the schema are not in play), [updateUser] and
    [dal.update] both return [null] and write nothing when no record has the
    email.  On a record that exists they do the same whenever the merged
    record passes the validators of the schema; when it does not,
    [updateUser] throws the error of the validation and writes nothing while
    [dal.update] writes the merged record. *)
Theorem updateUser_and_update
    (describe : User -> string) (s : users) (e : string) (d : UserData)
    (Hemail : new_email d = None) (Hnumber : new_accountNumber d = None) :
  ((forall u, u ∈ s -> email u <> e) ->
     UserRepository.updateUser describe e d s = (s, Return None)
     /\ dal.update e d s = (s, Return None))
  /\ (forall (i : nat) (u : User),
        list_find (Collection.matches e) s = Some (i, u) ->
        UserModel.validate (set_fields d u) = [] ->
        UserRepository.updateUser describe e d s
        = (<[i := set_fields d u]> s, Return (Some (set_fields d u)))
        /\ dal.update e d s = UserRepository.updateUser describe e d s
        /\ email (set_fields d u) = email u
        /\ accountNumber (set_fields d u) = accountNumber u)
  /\ (forall (i : nat) (u : User),
        list_find (Collection.matches e) s = Some (i, u) ->
        UserModel.validate (set_fields d u) <> [] ->
        UserRepository.updateUser describe e d s
        = (s, Throw (Error ("Error updating user: "
                            +:+ describe (set_fields d u))))
        /\ stored (dal.update e d s) = <[i := set_fields d u]> s).
Proof.
  split_and!.
  - intros Hfree. apply first_match_none in Hfree.
    rewrite (update_absent s e d Hfree).
    unfold UserRepository.updateUser. run_async. rewrite Hfree. auto.
  - intros i u Hfind Hvalid. rewrite (update_found s e d i u Hfind).
    unfold UserRepository.updateUser. run_async. rewrite Hfind. simpl.
    rewrite Hvalid, Hemail, Hnumber. auto.
  - intros i u Hfind Hinvalid. rewrite (update_found s e d i u Hfind).
    split; [|reflexivity].
    unfold UserRepository.updateUser. run_async. rewrite Hfind. simpl.
    destruct (UserModel.validate (set_fields d u)) as [|err errs];
      [contradiction | reflexivity].
Qed.

Lemma updateUser_and_update_witness :
  UserRepository.updateUser sample_describe "mary@x.com"
    (name_password "Maria" "pw3") [jane70; mary50]
  = ([jane70; mkUser "Maria" "mary@x.com" "pw3" 50 (Some "checking") (Some "0001")],
     Return (Some (mkUser "Maria" "mary@x.com" "pw3" 50
                     (Some "checking") (Some "0001"))))
  /\ dal.update "mary@x.com" (name_password "Maria" "pw3") [jane70; mary50]
     = UserRepository.updateUser sample_describe "mary@x.com"
         (name_password "Maria" "pw3") [jane70; mary50]
  /\ UserRepository.updateUser sample_describe "john@x.com"
       (name_password "Johnny" "pw3") [jane70; john50]
     = ([jane70; john50],
        Throw (Error ("Error updating user: "
                      +:+ sample_describe
                            (set_fields (name_password "Johnny" "pw3") john50)))).
Proof.
  split_and!.
  - apply (updateUser_and_update sample_describe [jane70; mary50] "mary@x.com"
             (name_password "Maria" "pw3") eq_refl eq_refl)
      with (i := 1%nat) (u := mary50); reflexivity.
  - apply (updateUser_and_update sample_describe [jane70; mary50] "mary@x.com"
             (name_password "Maria" "pw3") eq_refl eq_refl)
      with (i := 1%nat) (u := mary50); reflexivity.
  - apply (updateUser_and_update sample_describe [jane70; john50] "john@x.com"
             (name_password "Johnny" "pw3") eq_refl eq_refl)
      with (i := 1%nat) (u := john50); [reflexivity | discriminate].
Defined.

(** X17: a document [createUser] stored on a free email and a free account
    number (so that the unique indexes of the schema are not in play) is the
    one [findUserByEmail] finds, and [deleteUser] on that email removes it,
    returns it and gives back the collection as it was before. *)
Theorem createUser_then_deleteUser
    (describe : User -> string) (s : users) (d : UserData) (e : string)
    (Hemail : new_email d = Some e)
    (Hfree : forall u, u ∈ s -> email u <> e)
    (Hnumber : forall u, u ∈ s -> accountNumber u <> new_accountNumber d)
    (Hvalid : UserModel.validate (UserModel.new_User d) = []) :
  UserRepository.createUser describe d s
  = (s ++ [UserModel.new_User d], Return (UserModel.new_User d))
  /\ completed (UserRepository.findUserByEmail e
                 (stored (UserRepository.createUser describe d s)))
     = Return (Some (length s, UserModel.new_User d))
  /\ UserRepository.deleteUser e (stored (UserRepository.createUser describe d s))
     = (s, Return (Some (UserModel.new_User d)))
  /\ UserRepository.deleteUser e s = (s, Return None).
Proof.
  pose proof (createUser_stores describe s d Hvalid) as Hcreate.
  assert (He : email (UserModel.new_User d) = e).
  { unfold UserModel.new_User. simpl. rewrite Hemail. reflexivity. }
  pose proof (first_match_appended s e _ Hfree He) as Hfind.
  rewrite Hcreate. unfold stored. simpl. split_and!.
  - reflexivity.
  - unfold UserRepository.findUserByEmail. run_async. rewrite Hfind. reflexivity.
  - unfold UserRepository.deleteUser, UserModel.findOneAndDelete. run_async.
    rewrite Hfind. rewrite delete_middle, app_nil_r. reflexivity.
  - unfold UserRepository.deleteUser, UserModel.findOneAndDelete. run_async.
    apply first_match_none in Hfree. rewrite Hfree. reflexivity.
Qed.

(** X18: [createUser] stores nothing and throws the error of the validation
    when [userData] lacks one of [name], [email], [password], [accountType]
    and [accountNumber], when its email does not match the pattern of the
    schema, or when its balance is [NaN]. *)
Theorem createUser_requires_schema
    (describe : User -> string) (s : users) (d : UserData)
    (Hlacks : new_name d = None \/ new_email d = None \/ new_password d = None
              \/ new_accountType d = None \/ new_accountNumber d = None
              \/ EmailPattern.test (default "" (new_email d)) = false
              \/ is_nan (default 0%float (new_balance d)) = true) :
  UserModel.validate (UserModel.new_User d) <> []
  /\ UserRepository.createUser describe d s
     = (s, Throw (Error ("Error creating user: "
                         +:+ describe (UserModel.new_User d)))).
Proof.
  assert (Hinvalid : UserModel.validate (UserModel.new_User d) <> []).
  { unfold UserModel.validate, UserModel.new_User. simpl.
    destruct d as [dn de dp db dt da]. simpl in *.
    intros Hnil.
    repeat (apply app_eq_nil in Hnil as [? Hnil]).
    destruct Hlacks as [-> | [-> | [-> | [-> | [-> | [Hpat | Hnan]]]]]];
      try discriminate.
    - destruct de as [e|]; simpl in *; [|discriminate].
      destruct (UserModel.nonempty e); [|discriminate].
      simpl in *. rewrite Hpat in *. discriminate.
    - rewrite Hnan in *. discriminate. }
  split; [exact Hinvalid|].
  apply createUser_refuses. exact Hinvalid.
Qed.

Lemma createUser_requires_schema_witness :
  UserModel.validate
    (UserModel.new_User
       (mkUserData (Some "John") (Some "john@x.com") (Some "pw") None None None))
  <> []
  /\ UserRepository.createUser sample_describe
       (mkUserData (Some "John") (Some "john@x.com") (Some "pw") None None None)
       [jane70]
     = ([jane70],
        Throw (Error ("Error creating user: "
                      +:+ sample_describe
                            (UserModel.new_User
                               (mkUserData (Some "John") (Some "john@x.com")
                                  (Some "pw") None None None))))).
Proof.
  apply (createUser_requires_schema sample_describe [jane70]
           (mkUserData (Some "John") (Some "john@x.com") (Some "pw") None None None)).
  right. right. right. left. reflexivity.
Defined.

Lemma createUser_then_deleteUser_witness :
  UserRepository.createUser sample_describe mary_data [jane70; john50]
  = ([jane70; john50; mary0], Return (mary0))
  /\ completed (UserRepository.findUserByEmail "mary@x.com"
                  (stored (UserRepository.createUser sample_describe mary_data
                             [jane70; john50])))
     = Return (Some (2%nat, mary0))
  /\ UserRepository.deleteUser "mary@x.com"
       (stored (UserRepository.createUser sample_describe mary_data
                  [jane70; john50]))
     = ([jane70; john50], Return (Some (mary0)))
  /\ UserRepository.deleteUser "mary@x.com" [jane70; john50]
     = ([jane70; john50], Return None).
Proof.
  apply (createUser_then_deleteUser sample_describe
           [jane70; john50] mary_data "mary@x.com").
  - reflexivity.
  - apply first_match_none. reflexivity.
  - intros u Hu.
    apply elem_of_cons in Hu as [-> | Hu]; [discriminate|].
    apply list_elem_of_singleton in Hu as ->. discriminate.
  - reflexivity.
Defined.

(** X19: the repository's [deposit] looks at no amount: on a document
    [createUser] stored on a free email and a free account number it adds
    any [a], negative ones too, to the balance, as doubles add, and returns
    the sum; only a sum that is [NaN] is refused, by the cast of the schema,
    and then nothing is written. *)
Theorem createUser_then_deposit
    (describe : User -> string)
    (s : users) (d : UserData) (e : string) (a : float)
    (Hemail : new_email d = Some e)
    (Hfree : forall u, u ∈ s -> email u <> e)
    (Hnumber : forall u, u ∈ s -> accountNumber u <> new_accountNumber d)
    (Hvalid : UserModel.validate (UserModel.new_User d) = []) :
  (is_nan (default 0 (new_balance d) + a)%float = false ->
     UserRepository.deposit describe e a
       (stored (UserRepository.createUser describe d s))
     = (s ++ [inc_balance a (UserModel.new_User d)],
        Return (Some (default 0 (new_balance d) + a)%float)))
  /\ (is_nan (default 0 (new_balance d) + a)%float = true ->
       UserRepository.deposit describe e a
         (stored (UserRepository.createUser describe d s))
       = (s ++ [UserModel.new_User d],
          Throw (Error ("Error depositing money: "
                        +:+ describe (inc_balance a (UserModel.new_User d)))))).
Proof.
  rewrite (createUser_stores describe s d Hvalid).
  assert (He : email (UserModel.new_User d) = e).
  { unfold UserModel.new_User. simpl. rewrite Hemail. reflexivity. }
  unfold stored. simpl. split; intros Hsum.
  - run_async.
    rewrite (first_match_appended s e _ Hfree He). simpl.
    rewrite validate_inc_balance by assumption.
    replace (length s) with (length s + 0)%nat by lia.
    rewrite insert_app_r. reflexivity.
  - run_async.
    rewrite (first_match_appended s e _ Hfree He). simpl.
    destruct (UserModel.validate (inc_balance a (UserModel.new_User d)))
      as [|path paths] eqn:Hv; [|reflexivity].
    apply validate_balance in Hv. simpl in Hv. congruence.
Qed.

Lemma createUser_then_deposit_witness :
  UserRepository.deposit sample_describe "mary@x.com" (-5)
    (stored (UserRepository.createUser sample_describe mary_data [jane70; john50]))
  = ([jane70; john50;
      mkUser "Mary" "mary@x.com" "pw" (-5) (Some "checking") (Some "0001")],
     Return (Some (-5)%float)).
Proof.
  apply (createUser_then_deposit sample_describe
           [jane70; john50] mary_data "mary@x.com" (-5)).
  - reflexivity.
  - apply first_match_none. reflexivity.
  - intros u Hu.
    apply elem_of_cons in Hu as [-> | Hu]; [discriminate|].
    apply list_elem_of_singleton in Hu as ->. discriminate.
  - reflexivity.
  - reflexivity.
Defined.

(** X20: the repository's [withdraw] keeps every balance at least 0 for
    every amount, and when the balance is below the amount it returns
    [null] and writes nothing. *)
Theorem repository_withdraw_keeps_funds
    (describe : User -> string)
    (s : users) (e : string) (a : float) (Hs : balances_nonnegative s) :
  balances_nonnegative (stored (UserRepository.withdraw describe e a s))
  /\ (forall (i : nat) (u : User),
        list_find (Collection.matches e) s = Some (i, u) ->
        (balance u <? a)%float = true ->
        UserRepository.withdraw describe e a s = (s, Return None)).
Proof.
  split.
  - run_async.
    destruct (list_find (Collection.matches e) s) as [[i u]|] eqn:Hfind;
      simpl; [|assumption].
    destruct (balance u <? a)%float eqn:Hb; simpl; [assumption|].
    destruct (UserModel.validate (dec_balance a u)) eqn:Hv; simpl; [|assumption].
    apply Forall_insert; [assumption|]. simpl.
    apply first_match_lookup in Hfind.
    apply sub_nonneg.
    + eapply balances_nonnegative_lookup; eassumption.
    + assumption.
    + apply (validate_balance _ Hv).
  - intros i u Hfind Hb. run_async. rewrite Hfind. simpl.
    rewrite Hb. reflexivity.
Qed.

Lemma repository_withdraw_keeps_funds_witness :
  balances_nonnegative
    (stored (UserRepository.withdraw sample_describe "mary@x.com" (-5)
               [jane70; mary50]))
  /\ (forall (i : nat) (u : User),
        list_find (Collection.matches "mary@x.com") [jane70; mary50] = Some (i, u) ->
        (balance u <? -5)%float = true ->
        UserRepository.withdraw sample_describe "mary@x.com" (-5) [jane70; mary50]
        = ([jane70; mary50], Return None)).
Proof.
  apply (repository_withdraw_keeps_funds sample_describe
           [jane70; mary50] "mary@x.com" (-5)).
  repeat (apply Forall_cons_2; [reflexivity|]). apply Forall_nil_2.
Defined.

(** ** accountController.js: the other routes *)

(** X21: on an account that exists and for an amount [a > 0], the route
    [/deposit] answers 200 with the double nearest to the balance plus [a]
    and the route [/withdraw], when the balance covers [a], answers 200 with
    the double nearest to the balance minus [a]; the number is in the body
    as [JSON.stringify] writes it, and each route leaves the collection its
    store function leaves. *)
Theorem deposit_withdraw_routes_succeed
    (s : users) (e : string) (a : float) (i : nat) (u : User)
    (Hfound : list_find (Collection.matches e) s = Some (i, u))
    (Ha : (0 <? a)%float = true) :
  accountController.post_deposit e a s
  = (stored (dal.deposit e a s),
     Return (res_json (JObj [("message", JStr "Deposit successful");
                             ("balance", json_number (balance u + a)%float)])))
  /\ ((a <=? balance u)%float = true ->
       accountController.post_withdraw e a s
       = (stored (dal.withdraw e a s),
          Return (res_json (JObj [("message", JStr "Withdrawal successful");
                                  ("balance",
                                   json_number (balance u - a)%float)])))).
Proof.
  pose proof (leb_antisym _ _ Ha) as Hpos.
  unfold accountController.post_deposit, accountController.post_withdraw.
  split.
  - unfold try_catch at 1. unfold bind at 1.
    rewrite (deposit_found s e a i u Hfound Hpos). reflexivity.
  - intros Hb. unfold try_catch at 1. unfold bind at 1.
    rewrite (withdraw_found s e a i u Hfound Hpos (ltb_antisym _ _ Hb)).
    unfold ret, stored. simpl. rewrite <- sub_add_opp. reflexivity.
Qed.

Lemma deposit_withdraw_routes_succeed_witness :
  accountController.post_deposit "john@x.com" 20 [jane70; john50]
  = (stored (dal.deposit "john@x.com" 20 [jane70; john50]),
     Return (res_json (JObj [("message", JStr "Deposit successful");
                             ("balance", json_number (balance john50 + 20)%float)])))
  /\ ((20 <=? balance john50)%float = true ->
       accountController.post_withdraw "john@x.com" 20 [jane70; john50]
       = (stored (dal.withdraw "john@x.com" 20 [jane70; john50]),
          Return (res_json (JObj [("message", JStr "Withdrawal successful");
                                  ("balance",
                                   json_number (balance john50 - 20)%float)])))).
Proof.
  apply (deposit_withdraw_routes_succeed
           [jane70; john50] "john@x.com" 20 1 john50).
  - reflexivity.
  - reflexivity.
Defined.

(** X22: the route [/update] answers 404 and writes nothing when no record
    has the email, and 200 when one has: unlike the routes [/findOne],
    [/deposit] and [/withdraw] it never answers 500. *)
Theorem post_update_status (s : users) (e n p : string) :
  ((forall u, u ∈ s -> email u <> e) ->
     accountController.post_update e n p s
     = (s, Return (status_json 404 (JObj [("message", JStr "User not found")]))))
  /\ ((exists u, u ∈ s /\ email u = e) ->
       exists r : Response,
         completed (accountController.post_update e n p s) = Return r
         /\ status r = 200).
Proof.
  unfold accountController.post_update. split.
  - intros Hfree. apply first_match_none in Hfree.
    unfold try_catch at 1. unfold bind at 1.
    rewrite (update_absent s e _ Hfree). reflexivity.
  - intros Hex. apply first_match_exists in Hex as (i & u & Hfind).
    unfold try_catch at 1. unfold bind at 1.
    rewrite (update_found s e _ i u Hfind). eexists. split; reflexivity.
Qed.

Lemma post_update_status_witness :
  accountController.post_update "nobody@x.com" "Nobody" "pw" [jane70; john50]
  = ([jane70; john50],
     Return (status_json 404 (JObj [("message", JStr "User not found")]))).
Proof.
  apply (post_update_status [jane70; john50] "nobody@x.com" "Nobody" "pw").
  apply first_match_none. reflexivity.
Defined.

(** X23: the route [/find] never writes; it answers 404 when no record has
    the email and otherwise 200 with the records that have it, oldest
    first, none of another email among them. *)
Theorem post_find_outcomes (s : users) (e : string) :
  stored (accountController.post_find e s) = s
  /\ ((forall u, u ∈ s -> email u <> e) ->
       completed (accountController.post_find e s)
       = Return (status_json 404 (JObj [("message", JStr "User not found")])))
  /\ ((exists u, u ∈ s /\ email u = e) ->
       completed (accountController.post_find e s)
       = Return (res_json
                   (JArr (map user_json (filter (Collection.matches e) s))))
       /\ (forall u, u ∈ filter (Collection.matches e) s <-> u ∈ s /\ email u = e)).
Proof.
  unfold accountController.post_find. split_and!.
  - run_async. destruct (Z.of_nat (length _) =? 0); reflexivity.
  - intros Hfree. run_async. rewrite (filter_absent s e Hfree). reflexivity.
  - intros Hex. destruct (find_nonempty s e Hex) as (u & rest & Hf). split.
    + run_async. rewrite Hf. reflexivity.
    + intros v. rewrite list_elem_of_filter. unfold Collection.matches. tauto.
Qed.

Lemma post_find_outcomes_witness :
  completed (accountController.post_find "john@x.com" [jane70; john50])
  = Return (res_json (JArr [user_json john50]))
  /\ completed (accountController.post_find "nobody@x.com" [jane70; john50])
     = Return (status_json 404 (JObj [("message", JStr "User not found")])).
Proof.
  split.
  - apply (post_find_outcomes [jane70; john50] "john@x.com").
    apply first_match_exists. exists 1%nat, john50. reflexivity.
  - apply (post_find_outcomes [jane70; john50] "nobody@x.com").
    apply first_match_none. reflexivity.
Defined.

(** X24: after [update] on an account that exists, with a [newData] that
    has no [email] key, [findOne] with the same email returns the merged
    record, the one [update] returned. *)
Theorem update_then_findOne
    (s : users) (e : string) (d : UserData) (i : nat) (u : User)
    (Hfound : list_find (Collection.matches e) s = Some (i, u))
    (Hkey : new_email d = None) :
  completed (dal.update e d s) = Return (Some (set_fields d u))
  /\ dal.findOne e (stored (dal.update e d s))
     = (stored (dal.update e d s), Return (Some (set_fields d u))).
Proof.
  rewrite (update_found s e d i u Hfound). unfold stored, completed. simpl.
  split; [reflexivity|].
  run_async.
  rewrite (first_match_insert s e i u (set_fields d u) Hfound).
  - reflexivity.
  - simpl. rewrite Hkey. simpl. eapply first_match_email; eassumption.
Qed.

Lemma update_then_findOne_witness :
  completed (dal.update "john@x.com" (name_password "Johnny" "pw3") [jane70; john50])
  = Return (Some (set_fields (name_password "Johnny" "pw3") john50))
  /\ dal.findOne "john@x.com"
       (stored (dal.update "john@x.com" (name_password "Johnny" "pw3")
                  [jane70; john50]))
     = (stored (dal.update "john@x.com" (name_password "Johnny" "pw3")
                  [jane70; john50]),
        Return (Some (set_fields (name_password "Johnny" "pw3") john50))).
Proof.
  apply (update_then_findOne [jane70; john50] "john@x.com"
           (name_password "Johnny" "pw3") 1 john50); reflexivity.
Defined.
